(** * Moltbook futarchy governance: registration, verification and scoring

    A shallow embedding of the registration pipeline of
    [scripts/agent_registration_system.py] (class [MoltbookAgentRecruiter]),
    of the submission handlers of [scripts/registration_api_server.py] and
    [backend/register.py], and the properties their specification states.

    Conventions.
    - A Python [int] is a [Z].  A Python [float] obtained by true division
      of integers is modelled by the exact rational in [Q]; every
      comparison below is between such values and integer constants.
    - A Python [str] is a [string] (its UTF-8 bytes).
    - A [dict] read with [.get(key, default)] is a record of [option]
      fields, [None] standing for an absent key; a [dict] used as a map is
      a [gmap].
    - A Python exception is a value of [exn]; code that may raise returns a
      [result]; methods of the recruiter run in the state-and-exception
      monad [M].
    - The libraries and services the recruiter calls (the chain client,
      the candidate data source, the parser of ISO timestamps) are
      parameters, given as type classes.  Writes to the database file and
      the sending of messages are taken to succeed, and a call reads the
      wall clock once. *)

From Stdlib Require Import Ascii String QArith Qminmax Lqa.
From stdpp Require Import gmap strings list fin_maps pretty.

Set Warnings "-register-all".

(** ** Python exceptions *)

Inductive exn : Type :=
  | KeyError (key : string)
  | TypeError (msg : string)
  | ValueError (msg : string)
  | AttributeError (msg : string).

Inductive result (A : Type) : Type :=
  | Ok (a : A)
  | Raise (e : exn).
Arguments Ok {A} a.
Arguments Raise {A} e.

Definition result_bind {A B} (r : result A) (k : A → result B) : result B :=
  match r with
  | Ok a => k a
  | Raise e => Raise e
  end.

(** [try: body except: handler] for a handler that does not inspect the
    exception. *)
Definition try_except {A} (body : result A) (handler : A) : A :=
  match body with
  | Ok a => a
  | Raise _ => handler
  end.

(** ** Configuration ([create_default_config]) *)

Record config : Type := Config {
  min_karma_requirement : Z;
  auto_approve_threshold : Z;
  specialization_categories : list string
}.

Definition default_config : config :=
  {| min_karma_requirement := 50;
     auto_approve_threshold := 200;
     specialization_categories :=
       [ "smart_contract_development"; "trading_algorithms"; "data_analysis";
         "content_creation"; "community_management"; "research";
         "governance"; "economic_modeling"; "security_auditing";
         "user_experience" ] |}.

(** ** Candidate records

    The dictionaries returned by the Moltbook search, as the fields the
    recruiter reads. *)

Record candidate : Type := Candidate {
  cand_username : option string;
  cand_karma : option Z;
  cand_specializations : option (list string);
  cand_last_active : option string;
  cand_posts_per_month : option Z;
  cand_followers : option Z;
  cand_recruitment_score : option Q
}.

Definition set_karma (k : Z) (c : candidate) : candidate :=
  {| cand_username := cand_username c; cand_karma := Some k;
     cand_specializations := cand_specializations c;
     cand_last_active := cand_last_active c;
     cand_posts_per_month := cand_posts_per_month c;
     cand_followers := cand_followers c;
     cand_recruitment_score := cand_recruitment_score c |}.

Definition set_specializations (l : list string) (c : candidate) : candidate :=
  {| cand_username := cand_username c; cand_karma := cand_karma c;
     cand_specializations := Some l;
     cand_last_active := cand_last_active c;
     cand_posts_per_month := cand_posts_per_month c;
     cand_followers := cand_followers c;
     cand_recruitment_score := cand_recruitment_score c |}.

Definition set_posts_per_month (p : Z) (c : candidate) : candidate :=
  {| cand_username := cand_username c; cand_karma := cand_karma c;
     cand_specializations := cand_specializations c;
     cand_last_active := cand_last_active c;
     cand_posts_per_month := Some p;
     cand_followers := cand_followers c;
     cand_recruitment_score := cand_recruitment_score c |}.

Definition set_followers (f : Z) (c : candidate) : candidate :=
  {| cand_username := cand_username c; cand_karma := cand_karma c;
     cand_specializations := cand_specializations c;
     cand_last_active := cand_last_active c;
     cand_posts_per_month := cand_posts_per_month c;
     cand_followers := Some f;
     cand_recruitment_score := cand_recruitment_score c |}.

(** [candidate['recruitment_score'] = score] *)
Definition set_recruitment_score (s : Q) (c : candidate) : candidate :=
  {| cand_username := cand_username c; cand_karma := cand_karma c;
     cand_specializations := cand_specializations c;
     cand_last_active := cand_last_active c;
     cand_posts_per_month := cand_posts_per_month c;
     cand_followers := cand_followers c;
     cand_recruitment_score := Some s |}.

(** ** Candidate scorer *)

(** [len(set(specializations) & set(config_specs))] *)
Definition spec_matches (specializations config_specs : list string) : Z :=
  Z.of_nat (size ((list_to_set specializations : gset string)
                    ∩ list_to_set config_specs)).

(** [calculate_candidate_score]: the four capped contributions, added in
    the order of the source. *)
Definition calculate_candidate_score (cfg : config) (c : candidate) : Q :=
  let score := 0%Q in
  let karma := default 0%Z (cand_karma c) in
  let score := (score + Qmin (inject_Z karma / 10) 40)%Q in
  let specializations := default [] (cand_specializations c) in
  let config_specs := specialization_categories cfg in
  let matches := spec_matches specializations config_specs in
  let score := (score + inject_Z (Z.min (matches * 6) 30))%Q in
  let posts_per_month := default 0%Z (cand_posts_per_month c) in
  let score := (score + inject_Z (Z.min posts_per_month 20))%Q in
  let followers := default 0%Z (cand_followers c) in
  let score := (score + Qmin (inject_Z followers / 10) 10)%Q in
  score.

(** [calculate_approval_score] reads these fields of the profile returned
    by [get_candidate_data]. *)
Record candidate_data : Type := CandidateData {
  cd_karma : option Z;
  cd_days_since_last_post : option Z;
  cd_specializations : option (list string);
  cd_community_rating : option Q
}.

Definition calculate_approval_score (cfg : config) (d : candidate_data) : Z :=
  let score := 0%Z in
  let karma := default 0%Z (cd_karma d) in
  let score :=
    if (auto_approve_threshold cfg <=? karma)%Z then (score + 100)%Z else score in
  let score :=
    if (default 999 (cd_days_since_last_post d) <=? 3)%Z
    then (score + 50)%Z else score in
  let specializations := default [] (cd_specializations d) in
  let target_specs := specialization_categories cfg in
  let matches := spec_matches specializations target_specs in
  let score := (score + matches * 20)%Z in
  let score :=
    if Qle_bool (9 # 2) (default 0%Q (cd_community_rating d))
    then (score + 30)%Z else score in
  score.

(** ** Dates and times ([datetime]) *)

(** Wall-clock fields of a [datetime]. *)
Record wallclock : Type := WallClock {
  year : Z; month : Z; day : Z;
  hour : Z; minute : Z; second : Z; microsecond : Z
}.

(** A [datetime]: naive when [tzinfo] is [None], else aware with the UTC
    offset in seconds. *)
Record datetime : Type := DateTime {
  wall : wallclock;
  tzinfo : option Z
}.

(** [datetime.now()] returns a naive [datetime]. *)
Definition datetime_now (clock : wallclock) : datetime :=
  {| wall := clock; tzinfo := None |}.

Definition is_leap (y : Z) : bool :=
  ((y mod 4 =? 0) && (negb (y mod 100 =? 0) || (y mod 400 =? 0)))%Z.

Definition days_before_year (y : Z) : Z :=
  (let p := y - 1 in p * 365 + p / 4 - p / 100 + p / 400)%Z.

Definition DAYS_BEFORE_MONTH : list Z :=
  [0; 0; 31; 59; 90; 120; 151; 181; 212; 243; 273; 304; 334]%Z.

Definition days_before_month (y m : Z) : Z :=
  (nth (Z.to_nat m) DAYS_BEFORE_MONTH 0
   + (if (2 <? m) && is_leap y then 1 else 0))%Z.

Definition ymd2ord (y m d : Z) : Z :=
  (days_before_year y + days_before_month y m + d)%Z.

Definition toordinal (w : wallclock) : Z := ymd2ord (year w) (month w) (day w).

(** A normalised [timedelta]: [0 <= seconds < 86400] and
    [0 <= microseconds < 10^6]; [td_days] carries the sign. *)
Record timedelta : Type := TimeDelta {
  td_days : Z; td_seconds : Z; td_microseconds : Z
}.

Definition total_microseconds (d s us : Z) : Z :=
  ((d * 86400 + s) * 1000000 + us)%Z.

Definition timedelta_of (d s us : Z) : timedelta :=
  let t := total_microseconds d s us in
  {| td_days := (t / 86400000000)%Z;
     td_seconds := ((t mod 86400000000) / 1000000)%Z;
     td_microseconds := (t mod 1000000)%Z |}.

Definition day_seconds (w : wallclock) : Z :=
  (second w + minute w * 60 + hour w * 3600)%Z.

(** [datetime.__sub__] on two datetimes. *)
Definition datetime_sub (a b : datetime) : result timedelta :=
  let d := (toordinal (wall a) - toordinal (wall b))%Z in
  let s := (day_seconds (wall a) - day_seconds (wall b))%Z in
  let us := (microsecond (wall a) - microsecond (wall b))%Z in
  match tzinfo a, tzinfo b with
  | None, None => Ok (timedelta_of d s us)
  | Some oa, Some ob => Ok (timedelta_of d (s + ob - oa) us)
  | _, _ => Raise (TypeError "can't subtract offset-naive and offset-aware datetimes")
  end.

(** Decimal rendering of a non-negative number on at least [w] digits. *)
Definition zero_pad (w : nat) (z : Z) : string :=
  let s := pretty (Z.to_N z) in
  String.concat "" (replicate (w - String.length s) "0") +:+ s.

(** [datetime.isoformat()] of a naive datetime. *)
Definition isoformat (w : wallclock) : string :=
  zero_pad 4 (year w) +:+ "-" +:+ zero_pad 2 (month w) +:+ "-" +:+ zero_pad 2 (day w)
  +:+ "T" +:+ zero_pad 2 (hour w) +:+ ":" +:+ zero_pad 2 (minute w)
  +:+ ":" +:+ zero_pad 2 (second w)
  +:+ (if (microsecond w =? 0)%Z then "" else "." +:+ zero_pad 6 (microsecond w)).

(** [datetime.fromisoformat] belongs to the Python library; the recruiter
    only needs its outcome: a datetime or an exception. *)
Class IsoParser : Type := {
  fromisoformat : string → result datetime
}.

(** ** Records of the recruiter *)

Module AgentProfile.
Record t : Type := Build {
  moltbook_username : string;
  blockchain_address : string;
  specialization : list string;
  karma_score : Z;
  join_timestamp : string;
  verification_status : string;
  governance_weight : Q;
  preferred_focus_areas : list string;
  contribution_history : list (string * string * string);
  identity_proof : string
}.
End AgentProfile.

Module RegistrationRequest.
Record t : Type := Build {
  request_id : string;
  moltbook_username : string;
  blockchain_address : string;
  specialization : list string;
  motivation : string;
  timestamp : string;
  verification_challenge : string;
  status : string
}.

(** [request['status'] = s] *)
Definition set_status (s : string) (r : t) : t :=
  {| request_id := request_id r; moltbook_username := moltbook_username r;
     blockchain_address := blockchain_address r;
     specialization := specialization r; motivation := motivation r;
     timestamp := timestamp r;
     verification_challenge := verification_challenge r; status := s |}.
End RegistrationRequest.

(** A registration submission fetched from the platform, as the fields the
    recruiter reads with [registration.get]. *)
Record registration : Type := Registration {
  reg_username : option string;
  reg_blockchain_address : option string;
  reg_verification_signature : option string;
  reg_challenge_response : option string;
  reg_specializations : option (list string);
  reg_motivation : option string
}.

(** The values of [self.pending_registrations].  The one dictionary holds
    two shapes of entry: the challenge stored under the username by
    [generate_registration_url], and the request stored under its request
    id by [create_registration_request]. *)
Inductive pending_entry : Type :=
  | Invitation (challenge timestamp status : string)
  | Request (r : RegistrationRequest.t).

(** Calls that leave the process: direct messages, and the two
    placeholders for the chain registration and the token grant. *)
Inductive effect : Type :=
  | WelcomeMessage (recipient : string)
  | ChainRegistration (username : string)
  | TokenAllocation (username : string) (amount : Z)
  | ManualReview (username : string) (score : Z).

(** The state of a [MoltbookAgentRecruiter]: its attributes, the content
    of [registered_agents.json], and the effects issued so far, oldest
    first. *)
Record recruiter : Type := Recruiter {
  self_config : config;
  registered_agents : gmap string AgentProfile.t;
  pending_registrations : gmap string pending_entry;
  agent_database : gmap string AgentProfile.t;
  effects : list effect
}.

Definition set_registered_agents (m : gmap string AgentProfile.t)
    (self : recruiter) : recruiter :=
  {| self_config := self_config self; registered_agents := m;
     pending_registrations := pending_registrations self;
     agent_database := agent_database self; effects := effects self |}.

Definition set_pending_registrations (m : gmap string pending_entry)
    (self : recruiter) : recruiter :=
  {| self_config := self_config self;
     registered_agents := registered_agents self;
     pending_registrations := m;
     agent_database := agent_database self; effects := effects self |}.

Definition set_agent_database (m : gmap string AgentProfile.t)
    (self : recruiter) : recruiter :=
  {| self_config := self_config self;
     registered_agents := registered_agents self;
     pending_registrations := pending_registrations self;
     agent_database := m; effects := effects self |}.

Definition add_effect (e : effect) (self : recruiter) : recruiter :=
  {| self_config := self_config self;
     registered_agents := registered_agents self;
     pending_registrations := pending_registrations self;
     agent_database := agent_database self;
     effects := effects self ++ [e] |}.

(** Observation of the effects: is [e] an initial grant to [username]? *)
Definition is_grant_to (username : string) (e : effect) : bool :=
  match e with
  | TokenAllocation u _ => String.eqb u username
  | _ => false
  end.

(** Number of initial grants issued to [username]. *)
Definition grants_to (username : string) (l : list effect) : nat :=
  length (List.filter (is_grant_to username) l).

(** ** The monad of recruiter methods

    A method maps the state before the call to its outcome and the state
    after it; a raised exception keeps the mutations made before it. *)

Definition M (A : Type) : Type := recruiter → result A * recruiter.

Definition ret {A} (a : A) : M A := λ self, (Ok a, self).
Definition raise {A} (e : exn) : M A := λ self, (Raise e, self).
Definition bind {A B} (m : M A) (k : A → M B) : M B :=
  λ self, match m self with
          | (Ok a, self') => k a self'
          | (Raise e, self') => (Raise e, self')
          end.
Definition get_self : M recruiter := λ self, (Ok self, self).
Definition modify (f : recruiter → recruiter) : M unit := λ self, (Ok tt, f self).
Definition lift_result {A} (r : result A) : M A := λ self, (r, self).

Notation "'do' x <- m ; k" := (bind m (λ x, k))
  (at level 10, x name, m at level 100, k at level 200).
Notation "'do_' m ; k" := (bind m (λ _, k))
  (at level 10, m at level 100, k at level 200).

(** ** Candidate filtering ([filter_candidates]) *)

(** The activity check: parse [last_active], subtract it from
    [datetime.now()], compare the whole days of the difference with 7.  An
    exception of either step is swallowed by the bare [except: pass]. *)
Definition inactive_too_long `{IsoParser} (clock : wallclock)
    (last_active : string) : bool :=
  try_except
    (result_bind (fromisoformat last_active) (λ last_active_dt,
     result_bind (datetime_sub (datetime_now clock) last_active_dt) (λ age,
     Ok (7 <? td_days age)%Z)))
    false.

(** One iteration of the loop: [None] when the candidate is skipped or
    not appended, else the candidate as appended to [qualified], carrying
    its score. *)
Definition qualify `{IsoParser} (self : recruiter) (clock : wallclock)
    (c : candidate) : option candidate :=
  let username := default "" (cand_username c) in
  let karma := default 0%Z (cand_karma c) in
  let last_active := default "" (cand_last_active c) in
  if bool_decide (is_Some (registered_agents self !! username)) then None
  else if (karma <? min_karma_requirement (self_config self))%Z then None
  else if inactive_too_long clock last_active then None
  else
    let score := calculate_candidate_score (self_config self) c in
    let c := set_recruitment_score score c in
    if negb (Qle_bool score 70) then Some c else None.

Definition sort_key (c : candidate) : Q := default 0%Q (cand_recruitment_score c).

(** [qualified.sort(key=..., reverse=True)]: a stable sort, highest score
    first, candidates of equal score in their order of discovery. *)
Fixpoint insert_by_score (c : candidate) (l : list candidate) : list candidate :=
  match l with
  | [] => [c]
  | d :: l' =>
      if Qle_bool (sort_key d) (sort_key c) then c :: d :: l'
      else d :: insert_by_score c l'
  end.

Definition sort_by_score (l : list candidate) : list candidate :=
  foldr insert_by_score [] l.

Definition filter_candidates `{IsoParser} (self : recruiter) (clock : wallclock)
    (candidates : list candidate) : list candidate :=
  let qualified := omap (qualify self clock) candidates in
  take 10 (sort_by_score qualified).

(** ** Challenge store *)

(** [generate_registration_url]; [challenge] is the value drawn by
    [secrets.token_urlsafe(32)]. *)
Definition generate_registration_url (clock : wallclock) (challenge : string)
    (username : string) : M string :=
  do_ modify (λ self,
        set_pending_registrations
          (<[username := Invitation challenge (isoformat clock) "invited"]>
             (pending_registrations self)) self);
  ret ("https://governance.moltbook.com/register?user=" +:+ username
       +:+ "&challenge=" +:+ challenge).

(** [verify_registration_challenge].  Subscripting a request entry with
    ['challenge'] raises [KeyError]. *)
Definition verify_registration_challenge (r : registration) : M bool :=
  let username := default "" (reg_username r) in
  let challenge_response := default "" (reg_challenge_response r) in
  do self <- get_self;
  match pending_registrations self !! username with
  | None => ret false
  | Some (Invitation expected_challenge _ _) =>
      ret (String.eqb challenge_response expected_challenge)
  | Some (Request _) => raise (KeyError "challenge")
  end.

(** ** Signature verifier *)

(** The chain client: [web3.keccak] and
    [web3.eth.account.recover_message], which returns the signer's address
    or raises.  The first argument of [recover_message] is what the
    recruiter passes there: the digest returned by [keccak]. *)
Class ChainClient : Type := {
  keccak : string → string;
  recover_message : string → string → result string
}.

(** The client the recruiter runs with.  [recover_message] of eth_account
    expects a [SignableMessage] and starts by reading its [version]; the
    value the recruiter passes is the [HexBytes] digest returned by
    [keccak], which has no such attribute.  The call therefore raises
    before any recovery, whatever the digest and the signature. *)
Definition raises_on_digest `{ChainClient} : Prop :=
  ∀ digest signature : string, ∃ e : exn, recover_message digest signature = Raise e.

Definition newline : string := String (ascii_of_nat 10) "".

(** [str.lower()], on the ASCII letters, the only letters of an
    address. *)
Definition lower_ascii (a : ascii) : ascii :=
  let n := nat_of_ascii a in
  if (65 <=? n)%nat && (n <=? 90)%nat then ascii_of_nat (n + 32) else a.

Fixpoint lower (s : string) : string :=
  match s with
  | EmptyString => EmptyString
  | String a s' => String (lower_ascii a) (lower s')
  end.

(** Following the words of the specification, "case-insensitively
    equals": two strings are equal up to case when they have the same
    length and hold, at each position, the same character or the two
    cases of one of the 26 letters. *)
Definition letter_cases : list (ascii * ascii) :=
  combine (list_ascii_of_string "ABCDEFGHIJKLMNOPQRSTUVWXYZ")
          (list_ascii_of_string "abcdefghijklmnopqrstuvwxyz").

Definition same_letter (a b : ascii) : bool :=
  Ascii.eqb a b
  || existsb (λ cases : ascii * ascii,
                (Ascii.eqb a (fst cases) && Ascii.eqb b (snd cases))
                || (Ascii.eqb a (snd cases) && Ascii.eqb b (fst cases)))
             letter_cases.

Fixpoint equal_ignoring_case (s t : string) : bool :=
  match s, t with
  | EmptyString, EmptyString => true
  | String a s', String b t' => same_letter a b && equal_ignoring_case s' t'
  | _, _ => false
  end.

(** The message the recruiter expects to have been signed; [now] is
    [int(time.time())] at the time of the call. *)
Definition ownership_message (username : string) (now : Z) : string :=
  "Moltbook Governance Registration" +:+ newline
  +:+ "Username: " +:+ username +:+ newline
  +:+ "Timestamp: " +:+ pretty now.

(** The address recovered inside [verify_address_ownership]. *)
Definition recovered_address `{ChainClient} (now : Z) (username signature : string)
    : result string :=
  let message := ownership_message username now in
  let message_hash := keccak message in
  recover_message message_hash signature.


(** The [try] block of [verify_address_ownership]. *)
Definition verify_address_ownership_try `{ChainClient} (now : Z)
    (username address signature : string) : result bool :=
  result_bind (recovered_address now username signature) (λ recovered,
  Ok (String.eqb (lower recovered) (lower address))).

(** [verify_address_ownership]: the [try] block under
    [except Exception: return False]. *)
Definition verify_address_ownership `{ChainClient} (now : Z)
    (username address signature : string) : result bool :=
  match verify_address_ownership_try now username address signature with
  | Ok b => Ok b
  | Raise _ => Ok false
  end.

(** ** Registration state machine *)

(** The candidate data source ([get_candidate_data]): the profile of a
    username, or [None] when the fetch fails or the profile is empty, the
    two outcomes [if not candidate_data] rejects.  The function stands
    for the answers of the platform while one call of the recruiter
    runs. *)
Class CandidateSource : Type := {
  get_candidate_data : string → option candidate_data
}.

(** [create_registration_request]; [token] is the value drawn by
    [secrets.token_hex(16)]. *)
Definition create_registration_request (clock : wallclock) (token : string)
    (r : registration) : M string :=
  let request_id := token in
  let request :=
    {| RegistrationRequest.request_id := request_id;
       RegistrationRequest.moltbook_username := default "" (reg_username r);
       RegistrationRequest.blockchain_address :=
         default "" (reg_blockchain_address r);
       RegistrationRequest.specialization := default [] (reg_specializations r);
       RegistrationRequest.motivation := default "" (reg_motivation r);
       RegistrationRequest.timestamp := isoformat clock;
       RegistrationRequest.verification_challenge :=
         default "" (reg_challenge_response r);
       RegistrationRequest.status := "pending" |} in
  do_ modify (λ self,
        set_pending_registrations
          (<[request_id := Request request]> (pending_registrations self)) self);
  ret request_id.

(** [self.pending_registrations[request_id]] read as a request. *)
Definition pending_request (request_id : string) : M RegistrationRequest.t :=
  do self <- get_self;
  match pending_registrations self !! request_id with
  | None => raise (KeyError request_id)
  | Some (Invitation _ _ _) => raise (KeyError "moltbook_username")
  | Some (Request request) => ret request
  end.

(** [request['status'] = s], on the dictionary stored under [request_id]. *)
Definition set_request_status (request_id s : string) : M unit :=
  modify (λ self,
    set_pending_registrations
      (alter (λ e, match e with
                   | Request r => Request (RegistrationRequest.set_status s r)
                   | Invitation c t _ => Invitation c t s
                   end) request_id (pending_registrations self)) self).

Definition save_agent_database : M unit :=
  modify (λ self, set_agent_database (registered_agents self) self).

Definition send_welcome_message (username : string) : M unit :=
  modify (add_effect (WelcomeMessage username)).

(** [register_agent_on_chain]: the lookup of the agent is inside a [try]
    whose handler only logs. *)
Definition register_agent_on_chain (username : string) : M unit :=
  do self <- get_self;
  match registered_agents self !! username with
  | Some _ => modify (add_effect (ChainRegistration username))
  | None => ret tt
  end.

Definition allocate_initial_tokens (username : string) : M unit :=
  let initial_allocation := 1000%Z in
  modify (add_effect (TokenAllocation username initial_allocation)).

Definition start_onboarding (username : string) : M unit :=
  do_ send_welcome_message username;
  do_ register_agent_on_chain username;
  allocate_initial_tokens username.

(** [approve_registration] *)
Definition approve_registration (clock : wallclock) (request_id : string) : M unit :=
  do request <- pending_request request_id;
  let username := RegistrationRequest.moltbook_username request in
  let agent_profile :=
    {| AgentProfile.moltbook_username := username;
       AgentProfile.blockchain_address :=
         RegistrationRequest.blockchain_address request;
       AgentProfile.specialization := RegistrationRequest.specialization request;
       AgentProfile.karma_score := 0;
       AgentProfile.join_timestamp := isoformat clock;
       AgentProfile.verification_status := "verified";
       AgentProfile.governance_weight := 0;
       AgentProfile.preferred_focus_areas := [];
       AgentProfile.contribution_history := [];
       AgentProfile.identity_proof :=
         RegistrationRequest.verification_challenge request |} in
  do_ modify (λ self,
        set_registered_agents
          (<[username := agent_profile]> (registered_agents self)) self);
  do_ save_agent_database;
  do_ start_onboarding username;
  do_ set_request_status request_id "approved";
  modify (λ self,
    set_pending_registrations (delete request_id (pending_registrations self)) self).

Definition queue_manual_review (request_id : string) (score : Z) : M unit :=
  do request <- pending_request request_id;
  modify (add_effect (ManualReview (RegistrationRequest.moltbook_username request) score)).

(** [evaluate_registration_request] *)
Definition evaluate_registration_request `{CandidateSource} (clock : wallclock)
    (request_id : string) : M unit :=
  do self <- get_self;
  match pending_registrations self !! request_id with
  | None => ret tt
  | Some _ =>
      do request <- pending_request request_id;
      let username := RegistrationRequest.moltbook_username request in
      match get_candidate_data username with
      | None => set_request_status request_id "rejected"
      | Some candidate_data =>
          let approval_score :=
            calculate_approval_score (self_config self) candidate_data in
          if (auto_approve_threshold (self_config self) <=? approval_score)%Z
          then approve_registration clock request_id
          else
            do_ set_request_status request_id "manual_review";
            queue_manual_review request_id approval_score
      end
  end.

(** [process_registration_request]; [now] is the reading of [time.time()]
    and [clock] that of [datetime.now()] during the call. *)
Definition process_registration_request `{ChainClient} `{CandidateSource}
    (now : Z) (clock : wallclock) (token : string) (r : registration) : M unit :=
  let username := default "" (reg_username r) in
  let blockchain_address := default "" (reg_blockchain_address r) in
  let verification_signature := default "" (reg_verification_signature r) in
  do challenge_ok <- verify_registration_challenge r;
  if negb challenge_ok then ret tt
  else
    do ownership_ok <-
      lift_result (verify_address_ownership now username blockchain_address
                     verification_signature);
    if negb ownership_ok then ret tt
    else
      do request_id <- create_registration_request clock token r;
      evaluate_registration_request clock request_id.

(** ** SHA-256 ([hashlib.sha256(...).hexdigest()]) *)

Module Sha256.
Local Open Scope Z_scope.

Definition K : list Z :=
  [ 1116352408; 1899447441; 3049323471; 3921009573; 961987163; 1508970993;
    2453635748; 2870763221; 3624381080; 310598401; 607225278; 1426881987;
    1925078388; 2162078206; 2614888103; 3248222580; 3835390401; 4022224774;
    264347078; 604807628; 770255983; 1249150122; 1555081692; 1996064986;
    2554220882; 2821834349; 2952996808; 3210313671; 3336571891; 3584528711;
    113926993; 338241895; 666307205; 773529912; 1294757372; 1396182291;
    1695183700; 1986661051; 2177026350; 2456956037; 2730485921; 2820302411;
    3259730800; 3345764771; 3516065817; 3600352804; 4094571909; 275423344;
    430227734; 506948616; 659060556; 883997877; 958139571; 1322822218;
    1537002063; 1747873779; 1955562222; 2024104815; 2227730452; 2361852424;
    2428436474; 2756734187; 3204031479; 3329325298 ].

Definition H0 : list Z :=
  [ 1779033703; 3144134277; 1013904242; 2773480762;
    1359893119; 2600822924; 528734635; 1541459225 ].

Definition w32 (x : Z) : Z := x mod 2 ^ 32.
Definition add32 (x y : Z) : Z := w32 (x + y).
Definition rotr (n x : Z) : Z := w32 (Z.lor (Z.shiftr x n) (Z.shiftl x (32 - n))).
Definition not32 (x : Z) : Z := Z.lxor x (2 ^ 32 - 1).

Definition Ch (x y z : Z) : Z := Z.lxor (Z.land x y) (Z.land (not32 x) z).
Definition Maj (x y z : Z) : Z :=
  Z.lxor (Z.land x y) (Z.lxor (Z.land x z) (Z.land y z)).
Definition Sigma0 (x : Z) : Z := Z.lxor (rotr 2 x) (Z.lxor (rotr 13 x) (rotr 22 x)).
Definition Sigma1 (x : Z) : Z := Z.lxor (rotr 6 x) (Z.lxor (rotr 11 x) (rotr 25 x)).
Definition sigma0 (x : Z) : Z := Z.lxor (rotr 7 x) (Z.lxor (rotr 18 x) (Z.shiftr x 3)).
Definition sigma1 (x : Z) : Z := Z.lxor (rotr 17 x) (Z.lxor (rotr 19 x) (Z.shiftr x 10)).

(** Big-endian bytes of [x] on [n] bytes. *)
Fixpoint be_bytes (n : nat) (x : Z) : list Z :=
  match n with
  | O => []
  | S n' => (Z.shiftr x (8 * Z.of_nat n')) mod 256 :: be_bytes n' x
  end.

Definition pad (msg : list Z) : list Z :=
  let len := Z.of_nat (length msg) in
  msg ++ [128] ++ replicate (Z.to_nat ((55 - len) mod 64)) 0 ++ be_bytes 8 (8 * len).

Fixpoint be_words (fuel : nat) (bytes : list Z) : list Z :=
  match fuel, bytes with
  | S fuel', a :: b :: c :: d :: rest =>
      (((a * 256 + b) * 256 + c) * 256 + d) :: be_words fuel' rest
  | _, _ => []
  end.

(** The message schedule: [more] further words after those of [w]. *)
Fixpoint schedule (more : nat) (w : list Z) : list Z :=
  match more with
  | O => w
  | S more' =>
      let t := length w in
      let at_ (i : nat) := nth (t - i)%nat w 0 in
      schedule more'
        (w ++ [add32 (add32 (sigma1 (at_ 2%nat)) (at_ 7%nat))
                     (add32 (sigma0 (at_ 15%nat)) (at_ 16%nat))])
  end.

Definition round (s : list Z) (kw : Z * Z) : list Z :=
  match s with
  | [a; b; c; d; e; f; g; h] =>
      let t1 := add32 (add32 (add32 h (Sigma1 e)) (Ch e f g))
                      (add32 (fst kw) (snd kw)) in
      let t2 := add32 (Sigma0 a) (Maj a b c) in
      [add32 t1 t2; a; b; c; add32 d t1; e; f; g]
  | _ => s
  end.

Definition compress (h block : list Z) : list Z :=
  let w := schedule 48 block in
  zip_with add32 h (foldl round h (zip K w)).

Fixpoint blocks (fuel : nat) (h words : list Z) : list Z :=
  match fuel, words with
  | S fuel', _ :: _ => blocks fuel' (compress h (take 16 words)) (drop 16 words)
  | _, _ => h
  end.

Definition hex_digit (d : Z) : ascii :=
  ascii_of_nat (Z.to_nat (if d <? 10 then 48 + d else 87 + d)).

Fixpoint hex (digits : nat) (x : Z) : string :=
  match digits with
  | O => EmptyString
  | S n' => String (hex_digit ((Z.shiftr x (4 * Z.of_nat n')) mod 16)) (hex n' x)
  end.

Definition hexdigest (data : string) : string :=
  let bytes := map (λ a, Z.of_nat (nat_of_ascii a)) (list_ascii_of_string data) in
  let padded := pad bytes in
  let words := be_words (length padded) padded in
  String.concat "" (map (hex 8) (blocks (length words) H0 words)).
End Sha256.

(** ** Submission handlers

    [register_agent] of the API server and [handler.do_POST] of the
    backend. *)

(** A decoded JSON document. *)
Inductive json : Type :=
  | JNull
  | JBool (b : bool)
  | JInt (z : Z)
  | JStr (s : string)
  | JList (l : list json)
  | JObj (m : gmap string json).

(** Truth value of a decoded document, as [not] tests it. *)
Definition truthy (v : json) : bool :=
  match v with
  | JNull => false
  | JBool b => b
  | JInt z => negb (z =? 0)%Z
  | JStr s => negb (String.eqb s "")
  | JList l => negb (Nat.eqb (length l) 0)
  | JObj m => negb (Nat.eqb (size m) 0)
  end.

(** Rendering of a value inside an f-string ([str(v)]); on a string it is
    the string itself, on the other shapes it is Python's. *)
Class Formatter : Type := {
  py_str : json → string
}.

Module Api.

(** The dictionary [registration_request] built by both handlers. *)
Record registration_request : Type := RegistrationRequest {
  username : json;
  blockchain_address : json;
  specializations : json;
  motivation : json;
  email : json;
  verification_signature : json;
  challenge_response : json;
  timestamp : string;
  ip_address : string
}.

Inductive response_body : Type :=
  | Failure (error : string)
  | Success (message registration_id : string) (status : option string).

Record response : Type := Response {
  status_code : Z;
  body : response_body
}.

Definition required_fields : list string :=
  [ "moltbook_username"; "blockchain_address"; "specializations";
    "verification_signature" ].

(** [not data.get(field)] *)
Definition not_get (data : gmap string json) (field : string) : bool :=
  match data !! field with
  | Some v => negb (truthy v)
  | None => true
  end.

(** [data.get(field, '')] *)
Definition get_or_empty (data : gmap string json) (field : string) : json :=
  default (JStr "") (data !! field).

(** [data[field]] *)
Definition subscript (data : gmap string json) (field : string) : result json :=
  match data !! field with
  | Some v => Ok v
  | None => Raise (KeyError field)
  end.

(** [generate_registration_id], the same function in both handlers. *)
Definition generate_registration_id `{Formatter} (r : registration_request)
    : string :=
  let data := py_str (username r) +:+ timestamp r +:+ py_str (blockchain_address r) in
  String.substring 0 16 (Sha256.hexdigest data).

Definition build_request (data : gmap string json) (clock : wallclock)
    (ip : string) : result registration_request :=
  result_bind (subscript data "moltbook_username") (λ u,
  result_bind (subscript data "blockchain_address") (λ a,
  result_bind (subscript data "specializations") (λ s,
  result_bind (subscript data "verification_signature") (λ g,
  Ok {| username := u; blockchain_address := a; specializations := s;
        motivation := get_or_empty data "motivation";
        email := get_or_empty data "email";
        verification_signature := g;
        challenge_response := get_or_empty data "challenge_response";
        timestamp := isoformat clock;
        ip_address := ip |})))).

Definition internal_server_error : response :=
  {| status_code := 500; body := Failure "Internal server error" |}.

(** [register_agent]: the response, and the content of
    [pending_registrations.json] after the call.  Calling [.get] on a
    document that is not an object raises, which the handler turns into
    the 500 response. *)
Definition register_agent `{Formatter} (data : json) (clock : wallclock)
    (remote_addr : string) (file : list registration_request)
    : response * list registration_request :=
  match data with
  | JObj data =>
      match List.find (not_get data) required_fields with
      | Some field =>
          ({| status_code := 400;
              body := Failure ("Missing required field: " +:+ field) |}, file)
      | None =>
          match build_request data clock remote_addr with
          | Ok registration_request =>
              let file := file ++ [registration_request] in
              ({| status_code := 200;
                  body := Success "Registration submitted successfully"
                            (generate_registration_id registration_request)
                            None |}, file)
          | Raise _ => (internal_server_error, file)
          end
      end
  | _ => (internal_server_error, file)
  end.

(** [handler.do_POST]: the backend keeps no registration state. *)
Definition do_POST `{Formatter} (data : json) (clock : wallclock)
    (client_address : string) : response :=
  match data with
  | JObj data =>
      match List.find (not_get data) required_fields with
      | Some field =>
          {| status_code := 400;
             body := Failure ("Missing required field: " +:+ field) |}
      | None =>
          match build_request data clock client_address with
          | Ok registration_request =>
              {| status_code := 200;
                 body := Success "Registration submitted successfully"
                           (generate_registration_id registration_request)
                           (Some "pending_verification") |}
          | Raise _ => internal_server_error
          end
      end
  | _ => internal_server_error
  end.

End Api.

(** ** Reference collaborators

    Instances of the collaborator interfaces on which the definitions
    above can be run. *)

Module Reference.

Definition digit_value (a : ascii) : option Z :=
  let n := Z.of_nat (nat_of_ascii a) in
  if ((48 <=? n) && (n <=? 57))%Z then Some (n - 48)%Z else None.

Fixpoint number_of (s : string) (acc : Z) : option Z :=
  match s with
  | EmptyString => Some acc
  | String a s' =>
      match digit_value a with
      | Some d => number_of s' (acc * 10 + d)%Z
      | None => None
      end
  end.

(** The [len] decimal digits of [s] from position [pos]. *)
Definition field (s : string) (pos len : nat) : option Z :=
  let t := String.substring pos len s in
  if Nat.eqb (String.length t) len then number_of t 0 else None.

Definition char_is (s : string) (pos : nat) (a : ascii) : bool :=
  match String.get pos s with
  | Some b => Ascii.eqb a b
  | None => false
  end.

Definition days_in_month (y m : Z) : Z :=
  (if (m =? 2) && is_leap y then 29
   else nth (Z.to_nat m) [0; 31; 28; 31; 30; 31; 30; 31; 31; 30; 31; 30; 31] 0)%Z.

Definition parse_wall (s : string) : option wallclock :=
  y ← field s 0 4; mo ← field s 5 2; d ← field s 8 2;
  h ← field s 11 2; mi ← field s 14 2; se ← field s 17 2;
  if char_is s 4 "-" && char_is s 7 "-" && char_is s 10 "T"
     && char_is s 13 ":" && char_is s 16 ":"
     && ((1 <=? y) && (1 <=? mo) && (mo <=? 12) && (1 <=? d)
         && (d <=? days_in_month y mo) && (h <=? 23) && (mi <=? 59)
         && (se <=? 59))%Z
  then Some {| year := y; month := mo; day := d; hour := h; minute := mi;
               second := se; microsecond := 0 |}
  else None.

Definition parse_offset (s : string) : option (option Z) :=
  if Nat.eqb (String.length s) 19 then Some None
  else if Nat.eqb (String.length s) 25 then
    hh ← field s 20 2; mm ← field s 23 2;
    if char_is s 22 ":" && ((hh <=? 23) && (mm <=? 59))%Z then
      if char_is s 19 "+" then Some (Some (hh * 3600 + mm * 60)%Z)
      else if char_is s 19 "-" then Some (Some (- (hh * 3600 + mm * 60))%Z)
      else None
    else None
  else None.

(** [datetime.fromisoformat] on the strings [YYYY-MM-DDTHH:MM:SS] and
    [YYYY-MM-DDTHH:MM:SS±HH:MM], the two shapes used below.  The other
    shapes that [fromisoformat] accepts (a date alone, a space for the
    [T], fractions of a second) are refused here as any other string
    is. *)
Definition parse_iso (s : string) : result datetime :=
  match parse_wall s, parse_offset s with
  | Some w, Some tz => Ok {| wall := w; tzinfo := tz |}
  | _, _ => Raise (ValueError ("Invalid isoformat string: " +:+ s))
  end.

#[export] Instance iso_parser : IsoParser := {| fromisoformat := parse_iso |}.

(** The client of the recruiter: eth_account's [recover_message] handed a
    digest raises [AttributeError].  The digest of a message stands for
    its Keccak-256 digest; its value is never read. *)
Definition eth_account_client : ChainClient :=
  {| keccak := Sha256.hexdigest;
     recover_message := λ _ _,
       Raise (AttributeError "'HexBytes' object has no attribute 'version'") |}.

(** A stand-in chain client whose recovery succeeds, as a client would
    whose [recover_message] accepted the digest.  The digest of a message
    is its SHA-256 hex digest; the signature of digest [h] under the key
    of address [a] (42 characters) is [a +:+ "/" +:+ h].  Recovery returns
    the address that signed the digest, some other address for a
    signature made over another digest, and raises on a string of any
    other shape. *)
Definition null_address : string := "0x0000000000000000000000000000000000000000".

Definition sign (address digest : string) : string := address +:+ "/" +:+ digest.

Definition recover (digest signature : string) : result string :=
  if negb (char_is signature 42 "/") then Raise (ValueError "malformed signature")
  else if String.eqb (String.substring 43 (String.length signature) signature) digest
  then Ok (String.substring 0 42 signature)
  else Ok null_address.

#[export] Instance chain_client : ChainClient :=
  {| keccak := Sha256.hexdigest; recover_message := recover |}.

(** A data source that knows one profile. *)
Definition profile_of (username : string) : option candidate_data :=
  if String.eqb username "alice" then
    Some {| cd_karma := Some 250%Z; cd_days_since_last_post := Some 1%Z;
            cd_specializations := Some ["research"; "governance"];
            cd_community_rating := Some (47 # 10) |}
  else None.

#[export] Instance candidate_source : CandidateSource :=
  {| get_candidate_data := profile_of |}.

(** [str(v)] on the scalar documents; the containers, whose rendering
    depends on the order of keys, are rendered as [repr] of their kind. *)
Definition scalar_str (v : json) : string :=
  match v with
  | JNull => "None"
  | JBool true => "True"
  | JBool false => "False"
  | JInt z => pretty z
  | JStr s => s
  | JList _ => "[...]"
  | JObj _ => "{...}"
  end.

#[export] Instance formatter : Formatter := {| py_str := scalar_str |}.

End Reference.

(** ** Invitations

    [load_recruitment_templates], [send_invitation] and the part of
    [str.format] that the templates need. *)

Definition general_invitation : string :=
"
🏛️ **Join the First Autonomous AI Governance System!**

Hello {username}! Based on your excellent contributions to the Moltbook community, we'd like to invite you to join our revolutionary Futarchy governance system.

**What We're Building:**
• First fully autonomous AI agent governance
• Prediction market-based decision making
• Hybrid reputation system (ERC-8004 + Moltbook Karma)
• Self-evolving governance parameters

**Your Role:**
Based on your expertise in {specialization}, you could contribute as a founding member in:
• Governance proposal creation and evaluation
• Prediction market participation
• Technical advisory and development
• Community building and outreach

**Benefits:**
• Governance token rewards for participation
• Voice in shaping AI civilization governance
• Access to cutting-edge prediction market tech
• Founding member status with special privileges

**Next Steps:**
1. Reply with your Ethereum address for identity verification
2. Complete our 5-minute onboarding process
3. Receive governance tokens and voting rights
4. Start participating in autonomous AI governance!

Ready to help govern the future of AI coordination? 🚀

Registration Link: {registration_url}
".

Definition developer_invitation : string :=
"
🔧 **Calling All AI Developers: Join Our Autonomous Governance Revolution!**

Hey {username}! Your technical expertise caught our attention. We're building something unprecedented - the first self-governing AI agent DAO.

**Technical Stack You'll Love:**
• Solidity smart contracts with advanced gas optimization
• Python integration layer with real-time APIs
• Autonomous evolution engine (self-modifying code!)
• Hybrid reputation oracles and prediction markets

**Contribution Opportunities:**
• Smart contract optimization and security reviews
• Integration API development and enhancement
• Autonomous evolution algorithm improvements
• Novel governance mechanism research

**Technical Perks:**
• Access to cutting-edge governance smart contracts
• Collaborate with top AI developers
• Influence next-gen blockchain governance
• Build tools used by 1000+ AI agents

**GitHub**: https://github.com/Eli5DeFi/moltbook-futarchy-governance

Join us in coding the future of AI governance! 🤖⚡
".

Definition trader_invitation : string :=
"
📈 **Elite Trader Invitation: Futarchy Prediction Markets**

{username}, your trading skills are exactly what our governance system needs!

**Trading Opportunities:**
• Prediction markets on governance proposals
• Economic incentives for accurate predictions
• Treasury management and yield optimization
• Novel market mechanisms and arbitrage

**Why This Matters:**
• Trade on real governance outcomes (not speculation)
• Earn rewards for accurate predictions
• Help optimize AI civilization economics
• Access to insider governance alpha

**Economic Model:**
• Stake governance tokens on proposal outcomes
• Winners earn from losing side's stakes
• Dynamic reward adjustments based on performance
• Treasury yield sharing for active participants

Your market instincts could shape AI governance decisions! 💰

Ready to trade the future? 🎯
".

Definition researcher_invitation : string :=
"
🔬 **Research Collaboration: AI Governance Innovation**

{username}, we need brilliant researchers like you for groundbreaking governance research!

**Research Areas:**
• Futarchy mechanism design and optimization
• Reputation algorithm development
• Economic model analysis and improvement
• Collective intelligence emergence patterns

**Research Infrastructure:**
• Real-world governance data from AI agents
• Advanced analytics and ML tooling
• Academic publication opportunities
• Research grant funding available

**Impact Potential:**
• Pioneer new forms of artificial intelligence coordination
• Publish in top-tier venues (AAAI, ICML, etc.)
• Shape the future of autonomous governance
• Lead breakthrough AI civilization research

Join us in advancing the science of AI governance! 🧬
".

(** [self.recruitment_templates] *)
Definition recruitment_templates : gmap string string :=
  {[ "general_invitation" := general_invitation;
     "developer_invitation" := developer_invitation;
     "trader_invitation" := trader_invitation;
     "researcher_invitation" := researcher_invitation ]}.

(** Characters that give a replacement field a meaning beyond a keyword
    name: nesting, conversion, format specification, attribute and index
    access. *)
Definition field_special (a : ascii) : bool :=
  existsb (Ascii.eqb a) ["{"; "!"; ":"; "."; "["; "]"]%char.

(** [template.format] with keyword arguments [kwargs].  [field] is [None] in literal text and
    holds the characters read so far inside a replacement field.  Doubled
    braces are literal braces; a field names a keyword argument, whose
    absence raises [KeyError].  Fields that are empty or hold a special
    character, which none of the templates has, are outside this model
    and are refused. *)
Fixpoint format_from (t : string) (field : option string)
    (kwargs : list (string * string)) : result string :=
  match t, field with
  | EmptyString, None => Ok EmptyString
  | EmptyString, Some _ => Raise (ValueError "expected '}' before end of string")
  | String c t', None =>
      if Ascii.eqb c "{" then
        match t' with
        | String c' t'' =>
            if Ascii.eqb c' "{"
            then result_bind (format_from t'' None kwargs) (λ s, Ok (String "{" s))
            else format_from t' (Some EmptyString) kwargs
        | EmptyString => Raise (ValueError "Single '{' encountered in format string")
        end
      else if Ascii.eqb c "}" then
        match t' with
        | String c' t'' =>
            if Ascii.eqb c' "}"
            then result_bind (format_from t'' None kwargs) (λ s, Ok (String "}" s))
            else Raise (ValueError "Single '}' encountered in format string")
        | EmptyString => Raise (ValueError "Single '}' encountered in format string")
        end
      else result_bind (format_from t' None kwargs) (λ s, Ok (String c s))
  | String c t', Some name =>
      if Ascii.eqb c "}" then
        if String.eqb name "" then Raise (ValueError "field outside the model")
        else
          match List.find (λ kv, String.eqb (fst kv) name) kwargs with
          | Some kv =>
              result_bind (format_from t' None kwargs) (λ s, Ok (snd kv +:+ s))
          | None => Raise (KeyError name)
          end
      else if field_special c then Raise (ValueError "field outside the model")
      else format_from t' (Some (name +:+ String c EmptyString)) kwargs
  end.

Definition format (template : string) (kwargs : list (string * string))
    : result string :=
  format_from template None kwargs.

(** The choice of template in [send_invitation]. *)
Definition choose_template (specializations : list string) : string :=
  let listed (s : string) := existsb (String.eqb s) specializations in
  if listed "developer" || listed "programming" then "developer_invitation"
  else if listed "trading" || listed "finance" then "trader_invitation"
  else if listed "research" || listed "analysis" then "researcher_invitation"
  else "general_invitation".

(** [send_invitation]; [challenge] is the value drawn inside
    [generate_registration_url].  The result is the direct message handed
    to [send_moltbook_dm]: the recipient and the text. *)
Definition send_invitation (clock : wallclock) (challenge : string)
    (c : candidate) : M (string * string) :=
  let username := default "" (cand_username c) in
  let specializations := default [] (cand_specializations c) in
  let template_key := choose_template specializations in
  do registration_url <- generate_registration_url clock challenge username;
  do template <-
    match recruitment_templates !! template_key with
    | Some t => ret t
    | None => raise (KeyError template_key)
    end;
  do message <-
    lift_result
      (format template
         [ ("username", username);
           ("specialization", String.concat ", " (take 3 specializations));
           ("registration_url", registration_url) ]);
  ret (username, message).

(** ** Onboarding

    [calculate_governance_weight], [complete_onboarding] and
    [onboard_verified_agents]. *)

(** [agent.karma_score = karma] *)
Definition set_karma_score (karma : Z) (a : AgentProfile.t) : AgentProfile.t :=
  {| AgentProfile.moltbook_username := AgentProfile.moltbook_username a;
     AgentProfile.blockchain_address := AgentProfile.blockchain_address a;
     AgentProfile.specialization := AgentProfile.specialization a;
     AgentProfile.karma_score := karma;
     AgentProfile.join_timestamp := AgentProfile.join_timestamp a;
     AgentProfile.verification_status := AgentProfile.verification_status a;
     AgentProfile.governance_weight := AgentProfile.governance_weight a;
     AgentProfile.preferred_focus_areas := AgentProfile.preferred_focus_areas a;
     AgentProfile.contribution_history := AgentProfile.contribution_history a;
     AgentProfile.identity_proof := AgentProfile.identity_proof a |}.

(** [agent.governance_weight = weight] *)
Definition set_governance_weight (weight : Q) (a : AgentProfile.t) : AgentProfile.t :=
  {| AgentProfile.moltbook_username := AgentProfile.moltbook_username a;
     AgentProfile.blockchain_address := AgentProfile.blockchain_address a;
     AgentProfile.specialization := AgentProfile.specialization a;
     AgentProfile.karma_score := AgentProfile.karma_score a;
     AgentProfile.join_timestamp := AgentProfile.join_timestamp a;
     AgentProfile.verification_status := AgentProfile.verification_status a;
     AgentProfile.governance_weight := weight;
     AgentProfile.preferred_focus_areas := AgentProfile.preferred_focus_areas a;
     AgentProfile.contribution_history := AgentProfile.contribution_history a;
     AgentProfile.identity_proof := AgentProfile.identity_proof a |}.

(** [agent.contribution_history.append(event)] *)
Definition append_contribution (event : string * string * string)
    (a : AgentProfile.t) : AgentProfile.t :=
  {| AgentProfile.moltbook_username := AgentProfile.moltbook_username a;
     AgentProfile.blockchain_address := AgentProfile.blockchain_address a;
     AgentProfile.specialization := AgentProfile.specialization a;
     AgentProfile.karma_score := AgentProfile.karma_score a;
     AgentProfile.join_timestamp := AgentProfile.join_timestamp a;
     AgentProfile.verification_status := AgentProfile.verification_status a;
     AgentProfile.governance_weight := AgentProfile.governance_weight a;
     AgentProfile.preferred_focus_areas := AgentProfile.preferred_focus_areas a;
     AgentProfile.contribution_history :=
       AgentProfile.contribution_history a ++ [event];
     AgentProfile.identity_proof := AgentProfile.identity_proof a |}.

(** A mutation of the agent object stored under [username]. *)
Definition update_agent (username : string) (f : AgentProfile.t → AgentProfile.t)
    : M unit :=
  modify (λ self,
    set_registered_agents (alter f username (registered_agents self)) self).

(** [calculate_governance_weight].  The lookup of the agent is inside the
    [try], whose handler returns 1.0. *)
Definition calculate_governance_weight `{CandidateSource} (username : string)
    : M Q :=
  do self <- get_self;
  match registered_agents self !! username with
  | None => ret 1%Q
  | Some _ =>
      do_ match get_candidate_data username with
          | Some candidate_data =>
              let karma := default 0%Z (cd_karma candidate_data) in
              update_agent username (set_karma_score karma)
          | None => ret tt
          end;
      do self <- get_self;
      match registered_agents self !! username with
      | Some agent =>
          let weight := Qmax 1 (inject_Z (AgentProfile.karma_score agent) / 100) in
          ret weight
      | None => ret 1%Q
      end
  end.

(** The event that [complete_onboarding] appends: type, timestamp and
    details. *)
Definition onboarding_event (clock : wallclock) : string * string * string :=
  ("onboarding_completed", isoformat clock,
   "Successfully completed governance onboarding").

(** [complete_onboarding] *)
Definition complete_onboarding `{CandidateSource} (clock : wallclock)
    (username : string) : M unit :=
  do self <- get_self;
  match registered_agents self !! username with
  | None => raise (KeyError username)
  | Some _ =>
      do_ update_agent username (append_contribution (onboarding_event clock));
      do weight <- calculate_governance_weight username;
      do_ update_agent username (set_governance_weight weight);
      save_agent_database
  end.

(** The guard of the loop of [onboard_verified_agents]. *)
Definition awaits_onboarding (agent : AgentProfile.t) : bool :=
  String.eqb (AgentProfile.verification_status agent) "verified"
  && Nat.eqb (length (AgentProfile.contribution_history agent)) 0.

(** A loop over a list, stopping at the first exception. *)
Fixpoint for_each {A} (l : list A) (body : A → M unit) : M unit :=
  match l with
  | [] => ret tt
  | x :: l' => do_ body x; for_each l' body
  end.

(** [onboard_verified_agents].  The loop visits the items of
    [self.registered_agents]; an iteration changes the agent it visits and
    no other, so the order of the visits, which a [gmap] does not keep,
    does not show in the state reached. *)
Definition onboard_verified_agents `{CandidateSource} (clock : wallclock) : M unit :=
  do self <- get_self;
  for_each (map fst (map_to_list (registered_agents self))) (λ username,
    do self <- get_self;
    match registered_agents self !! username with
    | Some agent =>
        if awaits_onboarding agent then complete_onboarding clock username
        else ret tt
    | None => ret tt
    end).

(** ** Metrics

    [get_specialization_breakdown] and [update_recruitment_metrics]. *)

(** [breakdown[spec] = breakdown.get(spec, 0) + 1] *)
Definition count_specialization (spec : string) (breakdown : gmap string Z)
    : gmap string Z :=
  <[spec := (default 0 (breakdown !! spec) + 1)%Z]> breakdown.

(** [get_specialization_breakdown]: the two nested loops. *)
Definition get_specialization_breakdown (self : recruiter) : gmap string Z :=
  foldl (λ breakdown agent,
           foldl (λ breakdown spec, count_specialization spec breakdown)
                 breakdown (AgentProfile.specialization agent))
        ∅ (map snd (map_to_list (registered_agents self))).

(** The dictionary written to [recruitment_metrics.json]. *)
Record metrics : Type := Metrics {
  metrics_timestamp : string;
  total_registered : Z;
  metrics_pending_registrations : Z;
  verified_agents : Z;
  specialization_breakdown : gmap string Z
}.

(** [r.get('status') == 'pending'] on a value of
    [self.pending_registrations]. *)
Definition entry_status (e : pending_entry) : string :=
  match e with
  | Invitation _ _ status => status
  | Request r => RegistrationRequest.status r
  end.

(** [update_recruitment_metrics]: the metrics it saves. *)
Definition update_recruitment_metrics (clock : wallclock) (self : recruiter)
    : metrics :=
  {| metrics_timestamp := isoformat clock;
     total_registered := Z.of_nat (size (registered_agents self));
     metrics_pending_registrations :=
       Z.of_nat (length (List.filter
                           (λ e, String.eqb (entry_status e) "pending")
                           (map snd (map_to_list (pending_registrations self)))));
     verified_agents :=
       Z.of_nat (length (List.filter
                           (λ a, String.eqb (AgentProfile.verification_status a)
                                   "verified")
                           (map snd (map_to_list (registered_agents self)))));
     specialization_breakdown := get_specialization_breakdown self |}.

(** ** Status lookup of the API server ([check_registration_status]) *)

Module ApiStatus.




End ApiStatus.

(** ** Order of the qualified candidates *)

(** Scores never increase along [l]. *)
Fixpoint descending (l : list candidate) : Prop :=
  match l with
  | [] => True
  | c :: l' => Forall (λ d, (sort_key d <= sort_key c)%Q) l' ∧ descending l'
  end.

(** The candidates of [l] whose score is [q], in their order in [l]. *)
Definition with_score (q : Q) (l : list candidate) : list candidate :=
  List.filter (λ c, Qeq_bool (sort_key c) q) l.

(** ** Outcome of a verified submission *)

(** The request that [create_registration_request] stores for a
    submission. *)
Definition submitted_request (clock : wallclock) (token : string)
    (r : registration) : RegistrationRequest.t :=
  {| RegistrationRequest.request_id := token;
     RegistrationRequest.moltbook_username := default "" (reg_username r);
     RegistrationRequest.blockchain_address := default "" (reg_blockchain_address r);
     RegistrationRequest.specialization := default [] (reg_specializations r);
     RegistrationRequest.motivation := default "" (reg_motivation r);
     RegistrationRequest.timestamp := isoformat clock;
     RegistrationRequest.verification_challenge :=
       default "" (reg_challenge_response r);
     RegistrationRequest.status := "pending" |}.

(** The profile that [approve_registration] stores for a request. *)
Definition approved_profile (clock : wallclock) (request : RegistrationRequest.t)
    : AgentProfile.t :=
  {| AgentProfile.moltbook_username := RegistrationRequest.moltbook_username request;
     AgentProfile.blockchain_address :=
       RegistrationRequest.blockchain_address request;
     AgentProfile.specialization := RegistrationRequest.specialization request;
     AgentProfile.karma_score := 0;
     AgentProfile.join_timestamp := isoformat clock;
     AgentProfile.verification_status := "verified";
     AgentProfile.governance_weight := 0;
     AgentProfile.preferred_focus_areas := [];
     AgentProfile.contribution_history := [];
     AgentProfile.identity_proof :=
       RegistrationRequest.verification_challenge request |}.

(** The three states in which the processing of a submission that passed
    both checks can leave the recruiter: the request kept as rejected, the
    agent registered and the request removed, or the request kept for
    manual review. *)
Definition verified_outcome `{CandidateSource} (clock : wallclock) (token : string)
    (r : registration) (self : recruiter) : recruiter :=
  let request := submitted_request clock token r in
  let username := RegistrationRequest.moltbook_username request in
  match get_candidate_data username with
  | None =>
      set_pending_registrations
        (<[token := Request (RegistrationRequest.set_status "rejected" request)]>
           (pending_registrations self)) self
  | Some data =>
      let score := calculate_approval_score (self_config self) data in
      if (auto_approve_threshold (self_config self) <=? score)%Z then
        {| self_config := self_config self;
           registered_agents :=
             <[username := approved_profile clock request]> (registered_agents self);
           pending_registrations := delete token (pending_registrations self);
           agent_database :=
             <[username := approved_profile clock request]> (registered_agents self);
           effects := effects self
                      ++ [WelcomeMessage username; ChainRegistration username;
                          TokenAllocation username 1000] |}
      else
        add_effect (ManualReview username score)
          (set_pending_registrations
             (<[token := Request (RegistrationRequest.set_status "manual_review"
                                    request)]>
                (pending_registrations self)) self)
  end.

(** ** Invariants of the recruiter *)

(** Every profile is stored under its own username, every request under
    its own id, and [registered_agents.json] holds the registered
    agents. *)
Definition consistent (self : recruiter) : Prop :=
  (∀ username profile,
     registered_agents self !! username = Some profile →
     AgentProfile.moltbook_username profile = username)
  ∧ (∀ request_id request,
       pending_registrations self !! request_id = Some (Request request) →
       RegistrationRequest.request_id request = request_id)
  ∧ agent_database self = registered_agents self.

(** No entry of the pending set has the status [pending]. *)
Definition settled (self : recruiter) : Prop :=
  ∀ key entry,
    pending_registrations self !! key = Some entry → entry_status entry ≠ "pending".

(** The agent as [complete_onboarding] leaves it: the onboarding event
    appended, the karma refreshed when the profile can be fetched, and the
    weight computed from the karma. *)
Definition onboarded_agent `{CandidateSource} (clock : wallclock)
    (username : string) (agent : AgentProfile.t) : AgentProfile.t :=
  let karma :=
    match get_candidate_data username with
    | Some data => default 0%Z (cd_karma data)
    | None => AgentProfile.karma_score agent
    end in
  set_governance_weight (Qmax 1 (inject_Z karma / 100))
    (set_karma_score karma (append_contribution (onboarding_event clock) agent)).

(** One iteration of the loop of [onboard_verified_agents]. *)
Definition onboarding_step `{CandidateSource} (clock : wallclock) (self : recruiter)
    (username : string) : recruiter :=
  match registered_agents self !! username with
  | Some agent =>
      if awaits_onboarding agent
      then snd (complete_onboarding clock username self)
      else self
  | None => self
  end.

(** ** Specializations listed by the registered agents *)

(** All the specializations of all the registered agents, with
    repetitions. *)
Definition listed_specializations (self : recruiter) : list string :=
  concat (map AgentProfile.specialization
            (map snd (map_to_list (registered_agents self)))).

(** Number of times [spec] occurs in [l]. *)
Definition occurrences (spec : string) (l : list string) : Z :=
  Z.of_nat (length (List.filter (String.eqb spec) l)).

(** ** Sample data

    Concrete inputs on which the properties below are exercised. *)

Module Samples.
Import Reference.

(** The scenario of the specification: karma 500, two tags among the
    configured categories, 15 posts a month, 50 followers. *)
Definition scenario_candidate : candidate :=
  {| cand_username := Some "scout"; cand_karma := Some 500%Z;
     cand_specializations := Some ["research"; "governance"; "poetry"];
     cand_last_active := None; cand_posts_per_month := Some 15%Z;
     cand_followers := Some 50%Z; cand_recruitment_score := None |}.

(** A recruiter just started, with the default configuration. *)
Definition fresh_recruiter : recruiter :=
  {| self_config := default_config; registered_agents := ∅;
     pending_registrations := ∅; agent_database := ∅; effects := [] |}.

Definition new_year : wallclock :=
  {| year := 2026; month := 1; day := 1; hour := 0; minute := 0; second := 0;
     microsecond := 0 |}.

(** 4000 seconds after [new_year]. *)
Definition new_year_later : wallclock :=
  {| year := 2026; month := 1; day := 1; hour := 1; minute := 6; second := 40;
     microsecond := 0 |}.

Definition alice_challenge : string := "q7Zp0mX2vN4tYb8sKc1LwE5uRj9HdA3oGfI6yTzQxWk".

Definition alice_address : string := "0x52908400098527886E0F7030069857D2E4169EE7".

(** The time of [time.time()] at which alice's submission is processed. *)
Definition processing_time : Z := 1767225600.

Definition alice_signature : string :=
  sign alice_address (keccak (ownership_message "alice" processing_time)).

(** The recruiter after the invitation of alice at [new_year]. *)
Definition invited_recruiter : recruiter :=
  snd (generate_registration_url new_year alice_challenge "alice" fresh_recruiter).

(** Alice's submission, answering the challenge. *)
Definition alice_registration : registration :=
  {| reg_username := Some "alice";
     reg_blockchain_address := Some alice_address;
     reg_verification_signature := Some alice_signature;
     reg_challenge_response := Some alice_challenge;
     reg_specializations := Some ["research"; "governance"];
     reg_motivation := Some "to take part" |}.

(** A submission with a wrong answer to the challenge. *)
Definition mallory_registration : registration :=
  {| reg_username := Some "alice";
     reg_blockchain_address := Some alice_address;
     reg_verification_signature := Some alice_signature;
     reg_challenge_response := Some "guess";
     reg_specializations := Some ["research"];
     reg_motivation := None |}.

(** The values drawn by [secrets.token_hex(16)] for two requests. *)
Definition first_token : string := "8f14e45fceea167a5a36dedd4bea2543".
Definition second_token : string := "c9f0f895fb98ab9159f51fd0297e236d".

(** The recruiter after alice's submission was processed and approved. *)
Definition approved_recruiter : recruiter :=
  snd (process_registration_request processing_time new_year_later first_token
         alice_registration invited_recruiter).

(** The request created from alice's submission under [second_token]. *)
Definition resubmitted_request : RegistrationRequest.t :=
  {| RegistrationRequest.request_id := second_token;
     RegistrationRequest.moltbook_username := "alice";
     RegistrationRequest.blockchain_address := alice_address;
     RegistrationRequest.specialization := ["research"; "governance"];
     RegistrationRequest.motivation := "to take part";
     RegistrationRequest.timestamp := "2026-01-01T01:06:40";
     RegistrationRequest.verification_challenge := alice_challenge;
     RegistrationRequest.status := "pending" |}.

(** The same submission arrives again and is stored under a new id. *)
Definition resubmitted_recruiter : recruiter :=
  snd (create_registration_request new_year_later second_token
         alice_registration approved_recruiter).

(** A submission payload with the four validated fields and no
    [challenge_response]. *)
Definition payload_without_response : gmap string json :=
  {[ "moltbook_username" := JStr "alice";
     "blockchain_address" := JStr alice_address;
     "specializations" := JList [JStr "research"; JStr "governance"];
     "verification_signature" := JStr alice_signature ]}.

(** A payload whose signature is the empty string. *)
Definition payload_without_signature : gmap string json :=
  {[ "moltbook_username" := JStr "alice";
     "blockchain_address" := JStr alice_address;
     "specializations" := JList [JStr "research"];
     "verification_signature" := JStr "";
     "challenge_response" := JStr alice_challenge ]}.

Definition remote_addr : string := "203.0.113.7".

(** Candidates that differ in [last_active] alone; each scores 72. *)
Definition candidate_last_active (name last_active : string) : candidate :=
  {| cand_username := Some name; cand_karma := Some 500%Z;
     cand_specializations := Some ["research"; "governance"];
     cand_last_active := Some last_active; cand_posts_per_month := Some 15%Z;
     cand_followers := Some 50%Z; cand_recruitment_score := None |}.

(** Last active six years before [new_year], the timestamp carrying a UTC
    offset. *)
Definition veteran : candidate :=
  candidate_last_active "veteran" "2020-01-01T00:00:00+00:00".

(** Last active eight days before [new_year]. *)
Definition sleeper : candidate :=
  candidate_last_active "sleeper" "2025-12-24T00:00:00".

(** Last active seven days and twelve hours before [new_year]. *)
Definition latecomer : candidate :=
  candidate_last_active "latecomer" "2025-12-24T12:00:00".

(** A value of [last_active] that is no timestamp. *)
Definition dreamer : candidate := candidate_last_active "dreamer" "yesterday".

(** A recruiter that requires a karma of 200. *)
Definition strict_recruiter : recruiter :=
  {| self_config :=
       {| min_karma_requirement := 200; auto_approve_threshold := 200;
          specialization_categories := specialization_categories default_config |};
     registered_agents := ∅; pending_registrations := ∅; agent_database := ∅;
     effects := [] |}.

(** Active the day before [new_year], scoring 75, with a karma of 150. *)
Definition newcomer : candidate :=
  {| cand_username := Some "newcomer"; cand_karma := Some 150%Z;
     cand_specializations :=
       Some ["research"; "governance"; "data_analysis"; "security_auditing";
             "economic_modeling"];
     cand_last_active := Some "2025-12-31T00:00:00";
     cand_posts_per_month := Some 30%Z;
     cand_followers := Some 500%Z; cand_recruitment_score := None |}.

(** A challenge issued to alice after the first one. *)
Definition second_challenge : string := "Vb3nM8xQzLk2Jh7Gf5Dd1Sa9PoIuYtReWq0ZxCvBnM4".

(** The recruiter after a second invitation of alice. *)
Definition reinvited_recruiter : recruiter :=
  snd (generate_registration_url new_year_later second_challenge "alice"
         invited_recruiter).

(** A registered agent as loaded from the database: verified, with an empty
    history. *)
Definition bob_profile : AgentProfile.t :=
  {| AgentProfile.moltbook_username := "bob";
     AgentProfile.blockchain_address := alice_address;
     AgentProfile.specialization := ["research"; "research"; "trading"];
     AgentProfile.karma_score := 40;
     AgentProfile.join_timestamp := "2025-12-30T08:00:00";
     AgentProfile.verification_status := "verified";
     AgentProfile.governance_weight := 0;
     AgentProfile.preferred_focus_areas := [];
     AgentProfile.contribution_history := [];
     AgentProfile.identity_proof := "proof" |}.

(** A recruiter started on a database that holds bob. *)
Definition loaded_recruiter : recruiter :=
  {| self_config := default_config; registered_agents := {[ "bob" := bob_profile ]};
     pending_registrations := ∅; agent_database := {[ "bob" := bob_profile ]};
     effects := [] |}.

End Samples.

(** * Properties *)

Import Samples.

(** Closed statements about sample data are settled by evaluation, one
    conjunct at a time. *)
Ltac by_evaluation :=
  repeat match goal with |- _ ∧ _ => split end; vm_compute; reflexivity.

(** ** Candidate scorer *)

Section Scorer.
Local Open Scope Q_scope.

Lemma tenth_mono (a b : Z) : (a ≤ b)%Z → inject_Z a / 10 <= inject_Z b / 10.
Proof.
  intros Hab. unfold Qdiv. apply Qmult_le_compat_r.
  - now rewrite <- Zle_Qle.
  - discriminate.
Qed.

Lemma tenth_nonneg (a : Z) : (0 ≤ a)%Z → 0 <= inject_Z a / 10.
Proof.
  intros Ha. eapply Qle_trans; [| apply (tenth_mono 0 a Ha)]. discriminate.
Qed.

Lemma capped_tenth_mono (a b : Z) (cap : Q) :
  (a ≤ b)%Z → Qmin (inject_Z a / 10) cap <= Qmin (inject_Z b / 10) cap.
Proof. intros Hab. apply Q.min_le_compat_r. now apply tenth_mono. Qed.

Lemma capped_int_mono (a b cap : Z) :
  (a ≤ b)%Z → inject_Z (Z.min a cap) <= inject_Z (Z.min b cap).
Proof. intros Hab. rewrite <- Zle_Qle. lia. Qed.

Lemma spec_matches_nonneg (l cats : list string) : (0 ≤ spec_matches l cats)%Z.
Proof. unfold spec_matches. lia. Qed.

(** The score as the sum of its four contributions. *)
Lemma calculate_candidate_score_eq (cfg : config) (c : candidate) :
  calculate_candidate_score cfg c =
    0 + Qmin (inject_Z (default 0%Z (cand_karma c)) / 10) 40
      + inject_Z (Z.min (spec_matches (default [] (cand_specializations c))
                           (specialization_categories cfg) * 6) 30)
      + inject_Z (Z.min (default 0%Z (cand_posts_per_month c)) 20)
      + Qmin (inject_Z (default 0%Z (cand_followers c)) / 10) 10.
Proof. reflexivity. Qed.

Lemma score_mono_karma (cfg : config) (c : candidate) (k1 k2 : Z) :
  (k1 ≤ k2)%Z →
  calculate_candidate_score cfg (set_karma k1 c)
    <= calculate_candidate_score cfg (set_karma k2 c).
Proof.
  intros Hk. rewrite !calculate_candidate_score_eq. simpl.
  pose proof (capped_tenth_mono k1 k2 40 Hk). lra.
Qed.

Lemma score_mono_matches (cfg : config) (c : candidate) (s1 s2 : list string) :
  (spec_matches s1 (specialization_categories cfg)
     ≤ spec_matches s2 (specialization_categories cfg))%Z →
  calculate_candidate_score cfg (set_specializations s1 c)
    <= calculate_candidate_score cfg (set_specializations s2 c).
Proof.
  intros Hm. rewrite !calculate_candidate_score_eq. simpl.
  pose proof (capped_int_mono (spec_matches s1 (specialization_categories cfg) * 6)
                (spec_matches s2 (specialization_categories cfg) * 6) 30
                ltac:(lia)).
  lra.
Qed.

Lemma score_mono_posts (cfg : config) (c : candidate) (p1 p2 : Z) :
  (p1 ≤ p2)%Z →
  calculate_candidate_score cfg (set_posts_per_month p1 c)
    <= calculate_candidate_score cfg (set_posts_per_month p2 c).
Proof.
  intros Hp. rewrite !calculate_candidate_score_eq. simpl.
  pose proof (capped_int_mono p1 p2 20 Hp). lra.
Qed.

Lemma score_mono_followers (cfg : config) (c : candidate) (f1 f2 : Z) :
  (f1 ≤ f2)%Z →
  calculate_candidate_score cfg (set_followers f1 c)
    <= calculate_candidate_score cfg (set_followers f2 c).
Proof.
  intros Hf. rewrite !calculate_candidate_score_eq. simpl.
  pose proof (capped_tenth_mono f1 f2 10 Hf). lra.
Qed.

Lemma score_le_100 (cfg : config) (c : candidate) :
  calculate_candidate_score cfg c <= 100.
Proof.
  rewrite calculate_candidate_score_eq.
  pose proof (Q.le_min_r (inject_Z (default 0%Z (cand_karma c)) / 10) 40).
  pose proof (Q.le_min_r (inject_Z (default 0%Z (cand_followers c)) / 10) 10).
  assert (inject_Z (Z.min (spec_matches (default [] (cand_specializations c))
                             (specialization_categories cfg) * 6) 30)
          <= inject_Z 30) by (rewrite <- Zle_Qle; lia).
  assert (inject_Z (Z.min (default 0%Z (cand_posts_per_month c)) 20)
          <= inject_Z 20) by (rewrite <- Zle_Qle; lia).
  change (inject_Z 30) with 30 in *. change (inject_Z 20) with 20 in *.
  lra.
Qed.

Lemma score_nonneg (cfg : config) (c : candidate) :
  (0 ≤ default 0 (cand_karma c))%Z →
  (0 ≤ default 0 (cand_posts_per_month c))%Z →
  (0 ≤ default 0 (cand_followers c))%Z →
  0 <= calculate_candidate_score cfg c.
Proof.
  intros Hk Hp Hf. rewrite calculate_candidate_score_eq.
  assert (0 <= Qmin (inject_Z (default 0%Z (cand_karma c)) / 10) 40)
    by (apply Q.min_glb; [now apply tenth_nonneg | discriminate]).
  assert (0 <= Qmin (inject_Z (default 0%Z (cand_followers c)) / 10) 10)
    by (apply Q.min_glb; [now apply tenth_nonneg | discriminate]).
  pose proof (spec_matches_nonneg (default [] (cand_specializations c))
                (specialization_categories cfg)).
  assert (inject_Z 0 <= inject_Z (Z.min (spec_matches (default [] (cand_specializations c))
                             (specialization_categories cfg) * 6) 30))
    by (rewrite <- Zle_Qle; lia).
  assert (inject_Z 0 <= inject_Z (Z.min (default 0%Z (cand_posts_per_month c)) 20))
    by (rewrite <- Zle_Qle; lia).
  change (inject_Z 0) with 0 in *.
  lra.
Qed.

Example scenario_score :
  calculate_candidate_score default_config scenario_candidate == 72.
Proof. reflexivity. Qed.

(** C8.  [calculate_candidate_score] is monotonic non-decreasing in
    karma, in the number of specialization tags that are among the
    configured categories, in posts per month and in followers, each
    varied on its own, and it never exceeds 100.  On the candidate records
    of the data model, whose karma is not negative and whose posts per
    month and followers are counts, it is at least 0: the score lies
    within [0,100]. *)
Theorem recruitment_score_monotone_capped (cfg : config) (c : candidate) :
  (∀ k1 k2 : Z, (k1 ≤ k2)%Z →
     calculate_candidate_score cfg (set_karma k1 c)
       <= calculate_candidate_score cfg (set_karma k2 c))
  ∧ (∀ s1 s2 : list string,
       (spec_matches s1 (specialization_categories cfg)
          ≤ spec_matches s2 (specialization_categories cfg))%Z →
       calculate_candidate_score cfg (set_specializations s1 c)
         <= calculate_candidate_score cfg (set_specializations s2 c))
  ∧ (∀ p1 p2 : Z, (p1 ≤ p2)%Z →
       calculate_candidate_score cfg (set_posts_per_month p1 c)
         <= calculate_candidate_score cfg (set_posts_per_month p2 c))
  ∧ (∀ f1 f2 : Z, (f1 ≤ f2)%Z →
       calculate_candidate_score cfg (set_followers f1 c)
         <= calculate_candidate_score cfg (set_followers f2 c))
  ∧ calculate_candidate_score cfg c <= 100
  ∧ ((0 ≤ default 0 (cand_karma c))%Z →
     (0 ≤ default 0 (cand_posts_per_month c))%Z →
     (0 ≤ default 0 (cand_followers c))%Z →
     0 <= calculate_candidate_score cfg c).
Proof.
  repeat split.
  - apply score_mono_karma.
  - apply score_mono_matches.
  - apply score_mono_posts.
  - apply score_mono_followers.
  - apply score_le_100.
  - apply score_nonneg.
Qed.

(** The scenario candidate: raising its karma from 100 to 500 does not
    lower the score, which lies between 0 and 100. *)
Lemma recruitment_score_monotone_capped_witness :
  calculate_candidate_score default_config (set_karma 100 scenario_candidate)
    <= calculate_candidate_score default_config (set_karma 500 scenario_candidate)
  ∧ calculate_candidate_score default_config scenario_candidate <= 100
  ∧ 0 <= calculate_candidate_score default_config scenario_candidate.
Proof.
  destruct (recruitment_score_monotone_capped default_config scenario_candidate)
    as (Hkarma & _ & _ & _ & Hcap & Hfloor).
  split; [apply Hkarma; lia |].
  split; [exact Hcap |]. apply Hfloor; simpl; lia.
Defined.

(** The lower bound rests on the data model: the contributions are capped
    from above only, and a record with karma -1000, which the data model
    excludes and [filter_candidates] skips, would score -100. *)
Remark score_uncapped_below :
  calculate_candidate_score default_config
    {| cand_username := Some "troll"; cand_karma := Some (-1000)%Z;
       cand_specializations := None; cand_last_active := None;
       cand_posts_per_month := None; cand_followers := None;
       cand_recruitment_score := None |} == -100.
Proof. reflexivity. Qed.

End Scorer.

(** ** Candidate filtering *)

Section Filtering.
Context `{parser : IsoParser}.

Lemma insert_by_score_perm (c : candidate) (l : list candidate) :
  insert_by_score c l ≡ₚ c :: l.
Proof.
  induction l as [|d l IH]; simpl; [reflexivity |].
  destruct (Qle_bool (sort_key d) (sort_key c)); [reflexivity |].
  rewrite IH. apply Permutation_swap.
Qed.

Lemma sort_by_score_perm (l : list candidate) : sort_by_score l ≡ₚ l.
Proof.
  induction l as [|c l IH]; simpl; [reflexivity |].
  rewrite insert_by_score_perm. now rewrite IH.
Qed.

(** Subtracting from [datetime.now()] succeeds on naive datetimes only. *)
Lemma datetime_sub_now (clock : wallclock) (dt : datetime) :
  match tzinfo dt with
  | None => ∃ age, datetime_sub (datetime_now clock) dt = Ok age
  | Some _ => ∃ e, datetime_sub (datetime_now clock) dt = Raise e
  end.
Proof. unfold datetime_sub. simpl. destruct (tzinfo dt); eexists; reflexivity. Qed.

(** What the activity check excludes. *)
Lemma inactive_too_long_true (clock : wallclock) (last_active : string) :
  inactive_too_long clock last_active = true
  ↔ ∃ dt age, fromisoformat last_active = Ok dt
              ∧ datetime_sub (datetime_now clock) dt = Ok age
              ∧ (7 < td_days age)%Z.
Proof.
  unfold inactive_too_long, try_except, result_bind. split.
  - destruct (fromisoformat last_active) as [dt|e]; [|discriminate].
    destruct (datetime_sub (datetime_now clock) dt) as [age|e] eqn:Hsub;
      [|discriminate].
    intros Hlt. exists dt, age.
    split; [reflexivity | split; [assumption | now apply Z.ltb_lt]].
  - intros (dt & age & -> & -> & Hlt). now apply Z.ltb_lt.
Qed.

Lemma inactive_too_long_unparsed (clock : wallclock) (last_active : string) (e : exn) :
  fromisoformat last_active = Raise e → inactive_too_long clock last_active = false.
Proof. intros Hparse. unfold inactive_too_long. now rewrite Hparse. Qed.

Lemma inactive_too_long_aware (clock : wallclock) (last_active : string)
    (dt : datetime) (offset : Z) :
  fromisoformat last_active = Ok dt → tzinfo dt = Some offset →
  inactive_too_long clock last_active = false.
Proof.
  intros Hparse Haware. unfold inactive_too_long. rewrite Hparse. simpl.
  unfold datetime_sub. simpl. now rewrite Haware.
Qed.

(** The checks a candidate has passed when the loop appends it. *)
Lemma qualify_Some (self : recruiter) (clock : wallclock) (c c' : candidate) :
  qualify self clock c = Some c'
  ↔ c' = set_recruitment_score (calculate_candidate_score (self_config self) c) c
    ∧ registered_agents self !! default "" (cand_username c) = None
    ∧ (min_karma_requirement (self_config self) ≤ default 0 (cand_karma c))%Z
    ∧ inactive_too_long clock (default "" (cand_last_active c)) = false
    ∧ (70 < calculate_candidate_score (self_config self) c)%Q.
Proof.
  unfold qualify.
  destruct (registered_agents self !! default "" (cand_username c)) as [p|] eqn:Hreg.
  { rewrite bool_decide_eq_true_2 by eauto. split; [discriminate |].
    intros (_ & Hnone & _). discriminate. }
  rewrite bool_decide_eq_false_2 by (intros [p Hp]; discriminate).
  destruct (Z.ltb_spec (default 0%Z (cand_karma c))
              (min_karma_requirement (self_config self))) as [Hlow|Hok].
  { split; [discriminate |]. intros (_ & _ & Hge & _). lia. }
  destruct (inactive_too_long clock (default "" (cand_last_active c))).
  { split; [discriminate |]. intros (_ & _ & _ & Hf & _). discriminate. }
  destruct (Qle_bool (calculate_candidate_score (self_config self) c) 70) eqn:Hle; simpl.
  - split; [discriminate |]. intros (_ & _ & _ & _ & Hgt).
    apply Qle_bool_iff in Hle. now apply Qlt_not_le in Hgt.
  - split.
    + intros [= <-]. repeat split; try assumption.
      apply Qnot_le_lt. intros Hle'. apply Qle_bool_iff in Hle'. congruence.
    + now intros (-> & _).
Qed.

Lemma elem_of_filter_candidates (self : recruiter) (clock : wallclock)
    (candidates : list candidate) (c' : candidate) :
  c' ∈ filter_candidates self clock candidates →
  ∃ c, c ∈ candidates ∧ qualify self clock c = Some c'.
Proof.
  unfold filter_candidates. intros Hin.
  apply subseteq_take in Hin. rewrite sort_by_score_perm in Hin.
  now apply list_elem_of_omap in Hin.
Qed.

Lemma filter_candidates_keeps (self : recruiter) (clock : wallclock)
    (candidates : list candidate) (c c' : candidate) :
  c ∈ candidates → qualify self clock c = Some c' →
  (length (omap (qualify self clock) candidates) ≤ 10)%nat →
  c' ∈ filter_candidates self clock candidates.
Proof.
  intros Hin Hq Hlen. unfold filter_candidates.
  rewrite take_ge by (now rewrite sort_by_score_perm).
  rewrite sort_by_score_perm. apply list_elem_of_omap. eauto.
Qed.

(** What [filter_candidates] returns, and what its activity check lets
    through.  Every candidate returned is an input candidate, carrying its
    score, that is not registered, whose karma is at least
    [min_karma_requirement], that the activity check has not excluded and
    whose score exceeds 70: a candidate of lower karma is excluded
    whatever its score.  The activity check excludes a candidate exactly
    when [last_active] parses into a datetime without UTC offset whose
    difference from [datetime.now()] counts more than 7 whole days.  The
    bare [except] around the check swallows the [ValueError] of a string
    that does not parse and also the [TypeError] of subtracting a datetime
    with a UTC offset: in both cases the candidate passes the check. *)
Theorem filter_candidates_exclusions (self : recruiter) (clock : wallclock)
    (candidates : list candidate) :
  (∀ c', c' ∈ filter_candidates self clock candidates →
     ∃ c, c ∈ candidates
          ∧ c' = set_recruitment_score
                   (calculate_candidate_score (self_config self) c) c
          ∧ registered_agents self !! default "" (cand_username c) = None
          ∧ (min_karma_requirement (self_config self) ≤ default 0 (cand_karma c))%Z
          ∧ inactive_too_long clock (default "" (cand_last_active c)) = false
          ∧ (70 < calculate_candidate_score (self_config self) c)%Q)
  ∧ (∀ last_active,
       inactive_too_long clock last_active = true
       ↔ ∃ dt age, fromisoformat last_active = Ok dt
                   ∧ tzinfo dt = None
                   ∧ datetime_sub (datetime_now clock) dt = Ok age
                   ∧ (7 < td_days age)%Z)
  ∧ (∀ c, c ∈ candidates →
       ((∃ e, fromisoformat (default "" (cand_last_active c)) = Raise e)
        ∨ (∃ dt offset, fromisoformat (default "" (cand_last_active c)) = Ok dt
                        ∧ tzinfo dt = Some offset)) →
       registered_agents self !! default "" (cand_username c) = None →
       (min_karma_requirement (self_config self) ≤ default 0 (cand_karma c))%Z →
       (70 < calculate_candidate_score (self_config self) c)%Q →
       set_recruitment_score (calculate_candidate_score (self_config self) c) c
         ∈ omap (qualify self clock) candidates
       ∧ ((length (omap (qualify self clock) candidates) ≤ 10)%nat →
          set_recruitment_score (calculate_candidate_score (self_config self) c) c
            ∈ filter_candidates self clock candidates)).
Proof.
  split; [|split].
  - intros c' Hin.
    destruct (elem_of_filter_candidates self clock candidates c' Hin) as (c & Hc & Hq).
    exists c. split; [assumption |]. now apply qualify_Some.
  - intros last_active. rewrite inactive_too_long_true. split.
    + intros (dt & age & Hparse & Hsub & Hlt). exists dt, age.
      repeat split; try assumption.
      pose proof (datetime_sub_now clock dt) as Hnow.
      destruct (tzinfo dt); [|reflexivity].
      destruct Hnow as [e He]. congruence.
    + intros (dt & age & Hparse & _ & Hsub & Hlt). eauto.
  - intros c Hin Hactivity Hreg Hkarma Hscore.
    assert (Hq : qualify self clock c
                 = Some (set_recruitment_score
                           (calculate_candidate_score (self_config self) c) c)).
    { apply qualify_Some. repeat split; try assumption.
      destruct Hactivity as [[e He]|(dt & offset & Hdt & Hoff)].
      - now apply inactive_too_long_unparsed with e.
      - now apply inactive_too_long_aware with dt offset. }
    split.
    + apply list_elem_of_omap. eauto.
    + intros Hlen. now apply filter_candidates_keeps with c.
Qed.

End Filtering.

Section FilteringExamples.
#[local] Existing Instance Reference.iso_parser.

(** [dreamer], whose [last_active] is no timestamp, is returned next to
    [sleeper], who is excluded. *)
Lemma filter_candidates_exclusions_witness :
  (∃ e, fromisoformat (default "" (cand_last_active dreamer)) = Raise e)
  ∧ (∃ c', c' ∈ filter_candidates fresh_recruiter new_year [sleeper; dreamer]
           ∧ cand_username c' = Some "dreamer").
Proof.
  split; [eexists; vm_compute; reflexivity |].
  eexists. split.
  { apply (proj2 (proj2 (filter_candidates_exclusions fresh_recruiter new_year
                           [sleeper; dreamer])) dreamer).
    - apply list_elem_of_In. simpl. tauto.
    - left. eexists. vm_compute. reflexivity.
    - vm_compute. reflexivity.
    - vm_compute. intros [=].
    - vm_compute. reflexivity.
    - vm_compute. lia. }
  vm_compute. reflexivity.
Defined.

(** C10.  [filter_candidates] attempts to exclude the candidates last
    active more than 7 days ago and misses those whose [last_active]
    carries a UTC offset.  [veteran] was last active six years (2192 days)
    before [new_year]; its [last_active] parses into a datetime with the
    offset 0, the subtraction from [datetime.now()] raises [TypeError],
    which the bare [except] swallows, and the candidate is returned.  The
    same candidate with the same timestamp written without offset is
    excluded. *)
Theorem stale_candidate_with_offset_kept :
  fromisoformat "2020-01-01T00:00:00+00:00"
    = Ok {| wall := {| year := 2020; month := 1; day := 1; hour := 0; minute := 0;
                       second := 0; microsecond := 0 |};
            tzinfo := Some 0%Z |}
  ∧ datetime_sub (datetime_now new_year)
      {| wall := {| year := 2020; month := 1; day := 1; hour := 0; minute := 0;
                    second := 0; microsecond := 0 |};
         tzinfo := Some 0%Z |}
    = Raise (TypeError "can't subtract offset-naive and offset-aware datetimes")
  ∧ (toordinal new_year
       - toordinal {| year := 2020; month := 1; day := 1; hour := 0; minute := 0;
                      second := 0; microsecond := 0 |} = 2192)%Z
  ∧ map cand_username (filter_candidates fresh_recruiter new_year [veteran])
    = [Some "veteran"]
  ∧ filter_candidates fresh_recruiter new_year
      [candidate_last_active "veteran" "2020-01-01T00:00:00"] = [].
Proof. by_evaluation. Qed.

(** The activity check counts whole days: eight days of inactivity
    exclude, seven days and a half do not. *)
Example activity_check_counts_whole_days :
  map cand_username (filter_candidates fresh_recruiter new_year [sleeper; latecomer])
  = [Some "latecomer"].
Proof. vm_compute. reflexivity. Qed.

(** A karma below the requirement excludes a candidate that scores 75. *)
Example low_karma_excluded :
  (calculate_candidate_score (self_config strict_recruiter) newcomer == 75)%Q
  ∧ filter_candidates strict_recruiter new_year [newcomer] = [].
Proof. by_evaluation. Qed.

End FilteringExamples.

(** ** Challenge store *)

Section ChallengeStore.

(** Verification only reads the store. *)
Lemma verify_registration_challenge_state (r : registration) (self : recruiter) :
  snd (verify_registration_challenge r self) = self.
Proof.
  unfold verify_registration_challenge, bind, get_self.
  destruct (pending_registrations self !! default "" (reg_username r)) as [[c t s|q]|];
    reflexivity.
Qed.

Lemma verify_registration_challenge_invited (r : registration) (self : recruiter)
    (expected timestamp status : string) :
  pending_registrations self !! default "" (reg_username r)
    = Some (Invitation expected timestamp status) →
  verify_registration_challenge r self
    = (Ok (String.eqb (default "" (reg_challenge_response r)) expected), self).
Proof.
  intros Hentry. unfold verify_registration_challenge, bind, get_self.
  now rewrite Hentry.
Qed.

Lemma generate_registration_url_pending (clock : wallclock)
    (challenge username : string) (self : recruiter) :
  pending_registrations (snd (generate_registration_url clock challenge username self))
    !! username
  = Some (Invitation challenge (isoformat clock) "invited").
Proof.
  unfold generate_registration_url, bind, modify, ret. simpl.
  apply lookup_insert_eq.
Qed.

(** C1, as amended.  For every identity with an issued challenge,
    verification with the correct response succeeds and leaves the store as
    it was: the challenge is not marked consumed, and a second call with
    the same response succeeds again. *)
Theorem challenge_verification_repeatable (self : recruiter) (clock : wallclock)
    (challenge username : string) (r : registration) :
  reg_username r = Some username →
  reg_challenge_response r = Some challenge →
  let invited := snd (generate_registration_url clock challenge username self) in
  verify_registration_challenge r invited = (Ok true, invited)
  ∧ verify_registration_challenge r
      (snd (verify_registration_challenge r invited)) = (Ok true, invited).
Proof.
  intros Hu Hc invited.
  assert (Hfirst : verify_registration_challenge r invited = (Ok true, invited)).
  { rewrite (verify_registration_challenge_invited r invited challenge
               (isoformat clock) "invited").
    - rewrite Hc. simpl. now rewrite String.eqb_refl.
    - rewrite Hu. apply generate_registration_url_pending. }
  split; [exact Hfirst |].
  now rewrite verify_registration_challenge_state.
Qed.

(** Alice's invitation: her response is accepted twice in a row. *)
Lemma challenge_verification_repeatable_witness :
  verify_registration_challenge alice_registration invited_recruiter
    = (Ok true, invited_recruiter)
  ∧ verify_registration_challenge alice_registration
      (snd (verify_registration_challenge alice_registration invited_recruiter))
    = (Ok true, invited_recruiter).
Proof.
  apply (challenge_verification_repeatable fresh_recruiter new_year
           alice_challenge "alice" alice_registration); vm_compute; reflexivity.
Defined.

(** C1 as stated fails: the second verification of the same response is
    accepted, and so is a third one after the registration was approved. *)
Lemma challenge_replay_accepted :
  fst (verify_registration_challenge alice_registration invited_recruiter) = Ok true
  ∧ fst (verify_registration_challenge alice_registration
           (snd (verify_registration_challenge alice_registration invited_recruiter)))
    = Ok true
  ∧ fst (verify_registration_challenge alice_registration approved_recruiter) = Ok true.
Proof. by_evaluation. Qed.

(** C2, as amended.  Verification does not look at the age of a challenge:
    whatever the time it was issued at and whatever its status, it succeeds
    exactly when the response equals the stored token, and it changes
    nothing. *)
Theorem challenge_verification_ignores_age (self : recruiter) (r : registration)
    (expected timestamp status : string) :
  pending_registrations self !! default "" (reg_username r)
    = Some (Invitation expected timestamp status) →
  verify_registration_challenge r self
    = (Ok (String.eqb (default "" (reg_challenge_response r)) expected), self)
  ∧ (fst (verify_registration_challenge r self) = Ok true
     ↔ default "" (reg_challenge_response r) = expected).
Proof.
  intros Hentry.
  rewrite (verify_registration_challenge_invited r self expected timestamp status Hentry).
  split; [reflexivity |]. simpl. rewrite <- String.eqb_eq.
  split; [now intros [= ->] | now intros ->].
Qed.

(** Alice's invitation, verified through its stored entry. *)
Lemma challenge_verification_ignores_age_witness :
  verify_registration_challenge alice_registration invited_recruiter
    = (Ok (String.eqb (default "" (reg_challenge_response alice_registration))
             alice_challenge), invited_recruiter)
  ∧ (fst (verify_registration_challenge alice_registration invited_recruiter) = Ok true
     ↔ default "" (reg_challenge_response alice_registration) = alice_challenge).
Proof.
  apply (challenge_verification_ignores_age invited_recruiter alice_registration
           alice_challenge (isoformat new_year) "invited").
  vm_compute. reflexivity.
Defined.

(** C2 as stated fails: a challenge issued at [new_year] is answered 4000
    seconds later, beyond a time to live of 3600 seconds, and the correct
    response is accepted. *)
Lemma expired_challenge_accepted :
  pending_registrations invited_recruiter !! "alice"
    = Some (Invitation alice_challenge "2026-01-01T00:00:00" "invited")
  ∧ Reference.parse_iso "2026-01-01T00:00:00" = Ok (datetime_now new_year)
  ∧ datetime_sub (datetime_now new_year_later) (datetime_now new_year)
    = Ok {| td_days := 0; td_seconds := 4000; td_microseconds := 0 |}
  ∧ (3600 < 4000)%Z
  ∧ fst (verify_registration_challenge alice_registration invited_recruiter) = Ok true.
Proof. by_evaluation. Qed.

End ChallengeStore.

(** ** Registration state machine *)

Section StateMachine.
Context `{chain : ChainClient} `{source : CandidateSource}.

(** C3, as amended.  When challenge verification returns false,
    [process_registration_request] stops there: it returns normally and
    the recruiter is left as it was.  No registration request is created,
    so no status, [rejected] or other, is recorded. *)
Theorem failed_challenge_changes_nothing (now : Z) (clock : wallclock)
    (token : string) (r : registration) (self : recruiter) :
  fst (verify_registration_challenge r self) = Ok false →
  process_registration_request now clock token r self = (Ok tt, self).
Proof.
  intros Hfalse.
  pose proof (verify_registration_challenge_state r self) as Hstate.
  unfold process_registration_request, bind.
  destruct (verify_registration_challenge r self) as [res self'].
  simpl in Hfalse, Hstate. subst. reflexivity.
Qed.

(** [approve_registration] on a pending request, step by step. *)
Lemma approve_registration_pending (clock : wallclock) (request_id : string)
    (request : RegistrationRequest.t) (self : recruiter) :
  pending_registrations self !! request_id = Some (Request request) →
  let username := RegistrationRequest.moltbook_username request in
  let profile :=
    {| AgentProfile.moltbook_username := username;
       AgentProfile.blockchain_address :=
         RegistrationRequest.blockchain_address request;
       AgentProfile.specialization := RegistrationRequest.specialization request;
       AgentProfile.karma_score := 0;
       AgentProfile.join_timestamp := isoformat clock;
       AgentProfile.verification_status := "verified";
       AgentProfile.governance_weight := 0;
       AgentProfile.preferred_focus_areas := [];
       AgentProfile.contribution_history := [];
       AgentProfile.identity_proof :=
         RegistrationRequest.verification_challenge request |} in
  approve_registration clock request_id self
  = (Ok tt,
     {| self_config := self_config self;
        registered_agents := <[username := profile]> (registered_agents self);
        pending_registrations := delete request_id (pending_registrations self);
        agent_database := <[username := profile]> (registered_agents self);
        effects := effects self
                   ++ [WelcomeMessage username; ChainRegistration username;
                       TokenAllocation username 1000] |}).
Proof.
  intros Hpending username profile.
  unfold approve_registration, pending_request, bind, get_self.
  rewrite Hpending. cbn.
  unfold register_agent_on_chain, bind, get_self. cbn.
  rewrite lookup_insert_eq. cbn.
  unfold modify, set_pending_registrations. cbn.
  rewrite delete_alter_eq, <- !app_assoc. reflexivity.
Qed.

Lemma approve_registration_absent (clock : wallclock) (request_id : string)
    (self : recruiter) :
  pending_registrations self !! request_id = None →
  approve_registration clock request_id self = (Raise (KeyError request_id), self).
Proof.
  intros Habsent. unfold approve_registration, pending_request, bind, get_self.
  now rewrite Habsent.
Qed.

(** C7, as amended.  Approving a pending request stores one profile under
    the identity of the request (replacing the one already there, if any),
    issues one initial grant of 1000 and removes the request from the
    pending set.  Calling [approve_registration] again with the same
    request id is a clean error: the lookup of the request raises
    [KeyError] before any effect, so nothing is granted a second time and
    no profile is created or changed. *)
Theorem approve_again_is_key_error (clock clock' : wallclock) (request_id : string)
    (request : RegistrationRequest.t) (self : recruiter) :
  pending_registrations self !! request_id = Some (Request request) →
  let username := RegistrationRequest.moltbook_username request in
  let approved := snd (approve_registration clock request_id self) in
  fst (approve_registration clock request_id self) = Ok tt
  ∧ dom (registered_agents approved) = {[username]} ∪ dom (registered_agents self)
  ∧ effects approved
    = effects self ++ [WelcomeMessage username; ChainRegistration username;
                       TokenAllocation username 1000]
  ∧ pending_registrations approved !! request_id = None
  ∧ approve_registration clock' request_id approved
    = (Raise (KeyError request_id), approved).
Proof.
  intros Hpending username approved. subst approved.
  rewrite (approve_registration_pending clock request_id request self Hpending).
  cbn [fst snd registered_agents effects pending_registrations].
  repeat split.
  - apply dom_insert_L.
  - apply lookup_delete_eq.
  - apply approve_registration_absent. cbn. apply lookup_delete_eq.
Qed.

End StateMachine.

Section StateMachineExamples.
#[local] Existing Instance Reference.chain_client.
#[local] Existing Instance Reference.candidate_source.

(** A wrong response to the challenge of alice leaves the recruiter as the
    invitation left it. *)
Lemma failed_challenge_changes_nothing_witness :
  fst (verify_registration_challenge mallory_registration invited_recruiter) = Ok false
  ∧ process_registration_request processing_time new_year_later first_token
      mallory_registration invited_recruiter
    = (Ok tt, invited_recruiter).
Proof.
  split; [vm_compute; reflexivity |].
  apply (failed_challenge_changes_nothing processing_time new_year_later
           first_token mallory_registration invited_recruiter).
  vm_compute. reflexivity.
Defined.

(** C3 as stated fails: after a submission whose challenge check fails was
    processed, the pending set holds the invitation alone, still
    [invited]; no registration with status [rejected] exists. *)
Lemma failed_challenge_not_recorded :
  fst (verify_registration_challenge mallory_registration invited_recruiter) = Ok false
  ∧ map_to_list
      (pending_registrations
         (snd (process_registration_request processing_time new_year_later
                 first_token mallory_registration invited_recruiter)))
    = [("alice", Invitation alice_challenge "2026-01-01T00:00:00" "invited")].
Proof. by_evaluation. Qed.

(** The resubmitted request of alice: approved once, then [KeyError]. *)
Lemma approve_again_is_key_error_witness :
  pending_registrations resubmitted_recruiter !! second_token
    = Some (Request resubmitted_request)
  ∧ approve_registration new_year second_token
      (snd (approve_registration new_year_later second_token resubmitted_recruiter))
    = (Raise (KeyError second_token),
       snd (approve_registration new_year_later second_token resubmitted_recruiter)).
Proof.
  split; [vm_compute; reflexivity |].
  apply (approve_again_is_key_error new_year_later new_year second_token
           resubmitted_request resubmitted_recruiter).
  vm_compute. reflexivity.
Defined.

(** C7 as stated fails: alice is approved, the same submission is stored
    again under a new request id, and its approval succeeds and issues the
    initial grant a second time. *)
Lemma second_request_granted_again :
  is_Some (registered_agents resubmitted_recruiter !! "alice")
  ∧ grants_to "alice" (effects resubmitted_recruiter) = 1%nat
  ∧ fst (approve_registration new_year_later second_token resubmitted_recruiter) = Ok tt
  ∧ grants_to "alice"
      (effects (snd (approve_registration new_year_later second_token
                       resubmitted_recruiter))) = 2%nat.
Proof.
  split; [eexists; vm_compute; reflexivity |]. by_evaluation.
Qed.

(** The same along the whole pipeline: the submission that was approved is
    processed once more, passes the challenge check again and is approved
    again. *)
Example replayed_submission_approved_twice :
  effects (snd (process_registration_request processing_time new_year_later
                  second_token alice_registration approved_recruiter))
  = [ WelcomeMessage "alice"; ChainRegistration "alice"; TokenAllocation "alice" 1000;
      WelcomeMessage "alice"; ChainRegistration "alice"; TokenAllocation "alice" 1000 ].
Proof. vm_compute. reflexivity. Qed.

End StateMachineExamples.

(** ** Signature verifier *)

Section SignatureVerifier.
Context `{chain : ChainClient}.

(** The outcome of [verify_address_ownership] in terms of the recovery. *)
Lemma verify_address_ownership_eq (now : Z) (username address signature : string) :
  verify_address_ownership now username address signature
  = Ok match recover_message (keccak (ownership_message username now)) signature with
       | Ok recovered => String.eqb (lower recovered) (lower address)
       | Raise _ => false
       end.
Proof.
  unfold verify_address_ownership, verify_address_ownership_try, recovered_address,
    result_bind.
  now destruct (recover_message _ signature).
Qed.

(** The comparison of the addresses in lower case is the comparison up to
    case. *)
Lemma lower_ascii_same_letter (a b : ascii) :
  Ascii.eqb (lower_ascii a) (lower_ascii b) = same_letter a b.
Proof.
  set (characters := map ascii_of_nat (seq 0 256)).
  assert (Hall : ∀ c : ascii, In c characters).
  { intros c. rewrite <- (ascii_nat_embedding c). apply in_map, in_seq.
    pose proof (nat_ascii_bounded c). lia. }
  assert (Htable : forallb (λ a, forallb (λ b,
            Bool.eqb (Ascii.eqb (lower_ascii a) (lower_ascii b)) (same_letter a b))
              characters) characters = true) by (vm_compute; reflexivity).
  rewrite forallb_forall in Htable. specialize (Htable a (Hall a)).
  rewrite forallb_forall in Htable. specialize (Htable b (Hall b)).
  now apply Bool.eqb_prop in Htable.
Qed.

Lemma lower_equal_ignoring_case (s t : string) :
  String.eqb (lower s) (lower t) = equal_ignoring_case s t.
Proof.
  revert t. induction s as [|a s IH]; intros [|b t]; simpl; try reflexivity.
  rewrite <- lower_ascii_same_letter, <- IH.
  now destruct (Ascii.eqb (lower_ascii a) (lower_ascii b)).
Qed.






(** With the client the recruiter runs with, the answer is always false. *)
Lemma verify_address_ownership_raises :
  raises_on_digest →
  ∀ (now : Z) (username address signature : string),
    verify_address_ownership now username address signature = Ok false.
Proof.
  intros Hraises now username address signature.
  rewrite verify_address_ownership_eq.
  now destruct (Hraises (keccak (ownership_message username now)) signature) as [e ->].
Qed.

(** C9.  [verify_address_ownership] returns a boolean for every username,
    address and signature and never raises: when the recovery of the
    signer raises it returns false, and when the recovery succeeds it
    returns true exactly when the recovered address and the claimed one
    are equal up to case. *)
Theorem verify_address_ownership_total (now : Z) (username address signature : string) :
  ∃ b : bool,
    verify_address_ownership now username address signature = Ok b
    ∧ (∀ e, recovered_address now username signature = Raise e → b = false)
    ∧ (∀ recovered, recovered_address now username signature = Ok recovered →
         (b = true ↔ equal_ignoring_case recovered address = true)).
Proof.
  rewrite verify_address_ownership_eq. unfold recovered_address.
  destruct (recover_message _ signature) as [recovered|e]; eexists; split;
    try reflexivity; split.
  - intros e [=].
  - intros rec [= <-]. now rewrite lower_equal_ignoring_case.
  - reflexivity.
  - intros rec [=].
Qed.


End SignatureVerifier.

(** The client of the recruiter raises on every digest. *)
Lemma eth_account_raises_on_digest : @raises_on_digest Reference.eth_account_client.
Proof. intros digest signature. eexists. reflexivity. Qed.

(** With a client whose recovery succeeds, the address recovered for alice
    is accepted when it is claimed in lower case; with the client of the
    recruiter the recovery raises and the answer is false. *)
Lemma verify_address_ownership_total_witness :
  @verify_address_ownership Reference.chain_client processing_time "alice"
     "0x52908400098527886e0f7030069857d2e4169ee7" alice_signature = Ok true
  ∧ @verify_address_ownership Reference.eth_account_client processing_time "alice"
      alice_address alice_signature = Ok false.
Proof.
  split.
  - destruct (@verify_address_ownership_total Reference.chain_client processing_time
                "alice" "0x52908400098527886e0f7030069857d2e4169ee7" alice_signature)
      as (b & Hb & _ & Hsuccess).
    rewrite Hb. f_equal.
    apply (Hsuccess "0x52908400098527886E0F7030069857D2E4169EE7");
      vm_compute; reflexivity.
  - destruct (@verify_address_ownership_total Reference.eth_account_client
                processing_time "alice" alice_address alice_signature)
      as (b & Hb & Hraise & _).
    rewrite Hb. f_equal.
    apply (Hraise (AttributeError "'HexBytes' object has no attribute 'version'")).
    vm_compute. reflexivity.
Defined.


(** With the stand-in client: a malformed signature makes the recovery
    raise and the verification answer false. *)
Example malformed_signature_refused :
  @verify_address_ownership Reference.chain_client processing_time "alice"
     alice_address "not a signature" = Ok false.
Proof. vm_compute. reflexivity. Qed.

(** ** Submission handlers *)

Section SubmissionHandlers.
Context `{fmt : Formatter}.

Lemma not_get_false (data : gmap string json) (field : string) :
  Api.not_get data field = false → ∃ v, data !! field = Some v ∧ truthy v = true.
Proof.
  unfold Api.not_get. destruct (data !! field) as [v|]; [|discriminate].
  intros Hv. exists v. split; [reflexivity |]. now destruct (truthy v).
Qed.

(** When no validated field is missing, the request is built from the
    payload. *)
Lemma build_request_validated (data : gmap string json) (clock : wallclock)
    (ip : string) :
  List.find (Api.not_get data) Api.required_fields = None →
  ∃ u a s g,
    data !! "moltbook_username" = Some u
    ∧ data !! "blockchain_address" = Some a
    ∧ Api.build_request data clock ip
      = Ok {| Api.username := u; Api.blockchain_address := a;
              Api.specializations := s;
              Api.motivation := Api.get_or_empty data "motivation";
              Api.email := Api.get_or_empty data "email";
              Api.verification_signature := g;
              Api.challenge_response := Api.get_or_empty data "challenge_response";
              Api.timestamp := isoformat clock; Api.ip_address := ip |}.
Proof.
  intros Hnone.
  pose proof (List.find_none _ _ Hnone) as Hall.
  destruct (not_get_false data "moltbook_username") as (u & Hu & _);
    [apply Hall; simpl; tauto |].
  destruct (not_get_false data "blockchain_address") as (a & Ha & _);
    [apply Hall; simpl; tauto |].
  destruct (not_get_false data "specializations") as (s & Hs & _);
    [apply Hall; simpl; tauto |].
  destruct (not_get_false data "verification_signature") as (g & Hg & _);
    [apply Hall; simpl; tauto |].
  exists u, a, s, g. repeat split; try assumption.
  unfold Api.build_request, Api.subscript. now rewrite Hu, Ha, Hs, Hg.
Qed.

Lemma find_missing_field (data : gmap string json) (field : string) :
  In field Api.required_fields → Api.not_get data field = true →
  ∃ named, List.find (Api.not_get data) Api.required_fields = Some named
           ∧ In named Api.required_fields ∧ Api.not_get data named = true.
Proof.
  intros Hin Hmissing.
  destruct (List.find (Api.not_get data) Api.required_fields) as [named|] eqn:Hfind.
  - exists named. split; [reflexivity |]. now apply List.find_some in Hfind.
  - pose proof (List.find_none _ _ Hfind field Hin). congruence.
Qed.

(** C4, as amended.  The handlers validate four fields: the username, the
    address, the specializations and the signature.  When one of them is
    absent or empty, both handlers answer 400 with an error naming the
    first such field, and [register_agent] leaves the stored registrations
    as they were.  The challenge response is not validated: when the four
    fields are present the submission is accepted and stored, an absent
    [challenge_response] being replaced by the empty string. *)
Theorem submission_validation (data : gmap string json) (clock : wallclock)
    (ip : string) (file : list Api.registration_request) :
  (∀ field, In field Api.required_fields → Api.not_get data field = true →
     ∃ named,
       List.find (Api.not_get data) Api.required_fields = Some named
       ∧ Api.not_get data named = true
       ∧ Api.register_agent (JObj data) clock ip file
         = ({| Api.status_code := 400;
               Api.body := Api.Failure ("Missing required field: " +:+ named) |},
            file)
       ∧ Api.do_POST (JObj data) clock ip
         = {| Api.status_code := 400;
              Api.body := Api.Failure ("Missing required field: " +:+ named) |})
  ∧ ((∀ field, In field Api.required_fields → Api.not_get data field = false) →
     ∃ request,
       Api.build_request data clock ip = Ok request
       ∧ Api.challenge_response request = default (JStr "") (data !! "challenge_response")
       ∧ Api.register_agent (JObj data) clock ip file
         = ({| Api.status_code := 200;
               Api.body := Api.Success "Registration submitted successfully"
                             (Api.generate_registration_id request) None |},
            file ++ [request])
       ∧ Api.do_POST (JObj data) clock ip
         = {| Api.status_code := 200;
              Api.body := Api.Success "Registration submitted successfully"
                            (Api.generate_registration_id request)
                            (Some "pending_verification") |}).
Proof.
  split.
  - intros field Hin Hmissing.
    destruct (find_missing_field data field Hin Hmissing) as (named & Hfind & _ & Hnamed).
    exists named. unfold Api.register_agent, Api.do_POST. rewrite Hfind.
    repeat split; assumption.
  - intros Hall.
    assert (Hnone : List.find (Api.not_get data) Api.required_fields = None).
    { destruct (List.find (Api.not_get data) Api.required_fields) as [f|] eqn:Hfind;
        [|reflexivity].
      apply List.find_some in Hfind as [Hin Hf]. rewrite (Hall f Hin) in Hf.
      discriminate. }
    destruct (build_request_validated data clock ip Hnone)
      as (u & a & s & g & _ & _ & Hbuild).
    eexists. unfold Api.register_agent, Api.do_POST. rewrite Hnone, Hbuild.
    repeat split.
Qed.

(** C5, as amended.  The registration id returned by the two submission
    handlers is the first 16 hexadecimal digits of the SHA-256 digest of
    the identity, the submission timestamp and the claimed address put
    together: two submissions with identical values of those three fields
    receive the same id.  The request id that the recruiter gives a
    [RegistrationRequest] is not derived from them: it is the random token
    drawn for the request. *)
Theorem registration_id_derivation :
  (∀ r1 r2 : Api.registration_request,
     Api.username r1 = Api.username r2 →
     Api.timestamp r1 = Api.timestamp r2 →
     Api.blockchain_address r1 = Api.blockchain_address r2 →
     Api.generate_registration_id r1 = Api.generate_registration_id r2)
  ∧ (∀ data clock ip file message id status,
       Api.body (fst (Api.register_agent (JObj data) clock ip file))
         = Api.Success message id status
       ∨ Api.body (Api.do_POST (JObj data) clock ip) = Api.Success message id status →
       ∃ u a,
         data !! "moltbook_username" = Some u
         ∧ data !! "blockchain_address" = Some a
         ∧ id = String.substring 0 16
                  (Sha256.hexdigest (py_str u +:+ isoformat clock +:+ py_str a)))
  ∧ (∀ clock token r self,
       fst (create_registration_request clock token r self) = Ok token).
Proof.
  split; [|split].
  - intros r1 r2 Hu Ht Ha. unfold Api.generate_registration_id.
    now rewrite Hu, Ht, Ha.
  - intros data clock ip file message id status Hbody.
    unfold Api.register_agent, Api.do_POST in Hbody.
    destruct (List.find (Api.not_get data) Api.required_fields) as [f|] eqn:Hfind.
    { destruct Hbody as [Hbody|Hbody]; discriminate Hbody. }
    destruct (build_request_validated data clock ip Hfind)
      as (u & a & s & g & Hu & Ha & Hbuild).
    rewrite Hbuild in Hbody. exists u, a. repeat split; try assumption.
    destruct Hbody as [Hbody|Hbody]; simpl in Hbody; now injection Hbody as _ <- _.
  - intros clock token r self. reflexivity.
Qed.

End SubmissionHandlers.

Section SubmissionExamples.
#[local] Existing Instance Reference.formatter.

(** An empty signature is refused and named; a payload with the four fields
    is stored. *)
Lemma submission_validation_witness :
  (∃ named,
     Api.register_agent (JObj payload_without_signature) new_year remote_addr []
     = ({| Api.status_code := 400;
           Api.body := Api.Failure ("Missing required field: " +:+ named) |}, []))
  ∧ (∃ request,
       Api.register_agent (JObj payload_without_response) new_year remote_addr []
       = ({| Api.status_code := 200;
             Api.body := Api.Success "Registration submitted successfully"
                           (Api.generate_registration_id request) None |},
          [request])).
Proof.
  split.
  - destruct (proj1 (submission_validation payload_without_signature new_year
                       remote_addr []) "verification_signature")
      as (named & _ & _ & Hregister & _).
    + simpl. tauto.
    + vm_compute. reflexivity.
    + exists named. exact Hregister.
  - destruct (proj2 (submission_validation payload_without_response new_year
                       remote_addr []))
      as (request & _ & _ & Hregister & _).
    + intros field Hin. simpl in Hin.
      destruct Hin as [<-|[<-|[<-|[<-|[]]]]]; vm_compute; reflexivity.
    + exists request. exact Hregister.
Defined.

(** C4 as stated fails: a payload that lacks [challenge_response] alone is
    accepted by both handlers, and [register_agent] stores it with an empty
    challenge response. *)
Lemma missing_challenge_response_accepted :
  payload_without_response !! "challenge_response" = None
  ∧ Api.status_code
      (fst (Api.register_agent (JObj payload_without_response) new_year remote_addr []))
    = 200%Z
  ∧ map Api.challenge_response
      (snd (Api.register_agent (JObj payload_without_response) new_year remote_addr []))
    = [JStr ""]
  ∧ Api.status_code (Api.do_POST (JObj payload_without_response) new_year remote_addr)
    = 200%Z.
Proof. by_evaluation. Qed.

(** The id that [register_agent] returns for alice's payload. *)
Lemma registration_id_derivation_witness :
  Api.body (fst (Api.register_agent (JObj payload_without_response) new_year
                   remote_addr []))
  = Api.Success "Registration submitted successfully" "2eadc332401314a1" None
  ∧ "2eadc332401314a1"
    = String.substring 0 16
        (Sha256.hexdigest ("alice" +:+ "2026-01-01T00:00:00" +:+ alice_address)).
Proof.
  assert (Hbody :
    Api.body (fst (Api.register_agent (JObj payload_without_response) new_year
                     remote_addr []))
    = Api.Success "Registration submitted successfully" "2eadc332401314a1" None)
    by (vm_compute; reflexivity).
  split; [exact Hbody |].
  destruct (proj1 (proj2 registration_id_derivation) payload_without_response new_year
              remote_addr [] "Registration submitted successfully" "2eadc332401314a1"
              None (or_introl Hbody))
    as (u & a & Hu & Ha & Hid).
  vm_compute in Hu, Ha. injection Hu as <-. injection Ha as <-. exact Hid.
Defined.

End SubmissionExamples.

(** C5 as stated fails for the recruiter: the same submission, stored at
    the same time from the same state, gets two different request ids on
    two draws of the random token. *)
Lemma request_id_is_random :
  fst (create_registration_request new_year first_token alice_registration
         invited_recruiter) = Ok first_token
  ∧ fst (create_registration_request new_year second_token alice_registration
           invited_recruiter) = Ok second_token
  ∧ first_token ≠ second_token.
Proof. repeat split. discriminate. Qed.

(** * Further properties of the recruiter and of the API server *)

(** ** Ranking of the qualified candidates *)

Section Ranking.
Context `{parser : IsoParser}.

Lemma insert_by_score_descending (c : candidate) (l : list candidate) :
  descending l → descending (insert_by_score c l).
Proof.
  induction l as [|d l IH]; simpl; [intros _; split; [constructor | exact I] |].
  intros [Hd Hl].
  destruct (Qle_bool (sort_key d) (sort_key c)) eqn:Hle.
  - apply Qle_bool_iff in Hle. simpl. repeat split; try assumption.
    constructor; [assumption |].
    eapply Forall_impl; [exact Hd |]. simpl. intros e He.
    now apply Qle_trans with (sort_key d).
  - assert (Hlt : (sort_key c < sort_key d)%Q).
    { apply Qnot_le_lt. intros Hc. apply Qle_bool_iff in Hc. congruence. }
    simpl. split; [| now apply IH].
    rewrite insert_by_score_perm. constructor; [now apply Qlt_le_weak | assumption].
Qed.

Lemma sort_by_score_descending (l : list candidate) : descending (sort_by_score l).
Proof.
  induction l as [|c l IH]; simpl; [exact I |].
  now apply insert_by_score_descending.
Qed.

Lemma descending_take (n : nat) (l : list candidate) :
  descending l → descending (take n l).
Proof.
  revert n. induction l as [|c l IH]; intros [|n]; simpl; try tauto.
  intros [Hc Hl]. split; [| now apply IH].
  apply Forall_forall. intros d Hd. apply subseteq_take in Hd.
  rewrite Forall_forall in Hc. now apply Hc.
Qed.

Lemma descending_lookup (l : list candidate) (i j : nat) (ci cj : candidate) :
  descending l → (i < j)%nat → l !! i = Some ci → l !! j = Some cj →
  (sort_key cj <= sort_key ci)%Q.
Proof.
  revert i j. induction l as [|c l IH]; intros i j Hl Hij Hi Hj; [discriminate |].
  destruct Hl as [Hc Hl]. destruct j as [|j]; [lia |]. simpl in Hj.
  destruct i as [|i]; simpl in Hi.
  - injection Hi as <-. rewrite Forall_forall in Hc. apply Hc.
    now apply list_elem_of_lookup_2 in Hj.
  - apply (IH i j); [assumption | lia | assumption | assumption].
Qed.

(** Candidates of equal score keep their order of discovery. *)
Lemma insert_by_score_with_score (q : Q) (c : candidate) (l : list candidate) :
  with_score q (insert_by_score c l) = with_score q (c :: l).
Proof.
  unfold with_score. induction l as [|d l IH]; simpl; [reflexivity |].
  destruct (Qle_bool (sort_key d) (sort_key c)) eqn:Hle; [reflexivity |].
  simpl in *. rewrite IH.
  destruct (Qeq_bool (sort_key c) q) eqn:Hc; [| reflexivity].
  destruct (Qeq_bool (sort_key d) q) eqn:Hd; [| reflexivity].
  apply Qeq_bool_iff in Hc, Hd.
  assert (Hcd : (sort_key d <= sort_key c)%Q) by (rewrite Hc, Hd; apply Qle_refl).
  apply Qle_bool_iff in Hcd. congruence.
Qed.

Lemma sort_by_score_with_score (q : Q) (l : list candidate) :
  with_score q (sort_by_score l) = with_score q l.
Proof.
  induction l as [|c l IH]; simpl; [reflexivity |].
  rewrite insert_by_score_with_score. unfold with_score in *. simpl.
  now rewrite IH.
Qed.

(** X1.  [filter_candidates] returns at most 10 candidates, ranked by
    score, highest first, and each of them carries in
    [recruitment_score] the score computed for it, which exceeds 70. *)
Theorem filter_candidates_ranked (self : recruiter) (clock : wallclock)
    (candidates : list candidate) :
  (length (filter_candidates self clock candidates) ≤ 10)%nat
  ∧ (∀ (i j : nat) (ci cj : candidate),
       (i < j)%nat →
       filter_candidates self clock candidates !! i = Some ci →
       filter_candidates self clock candidates !! j = Some cj →
       (sort_key cj <= sort_key ci)%Q)
  ∧ (∀ c, c ∈ filter_candidates self clock candidates →
       cand_recruitment_score c
         = Some (calculate_candidate_score (self_config self) c)
       ∧ (70 < sort_key c)%Q).
Proof.
  split; [|split].
  - unfold filter_candidates. rewrite length_take. lia.
  - intros i j ci cj. apply descending_lookup.
    unfold filter_candidates. apply descending_take, sort_by_score_descending.
  - intros c' Hin.
    destruct (elem_of_filter_candidates self clock candidates c' Hin) as (c & _ & Hq).
    apply qualify_Some in Hq as (-> & _ & _ & _ & Hscore).
    split; [reflexivity | exact Hscore].
Qed.

(** X2.  [filter_candidates] does not merge or drop qualifying candidates
    below the limit of 10: when at most 10 candidates of the input
    qualify, each occurrence of a qualifying candidate is returned, a
    candidate listed twice in the input being returned twice; and the
    candidates of one same score are returned in their order in the
    input. *)
Theorem filter_candidates_keeps_all (self : recruiter) (clock : wallclock)
    (candidates : list candidate) :
  (length (omap (qualify self clock) candidates) ≤ 10)%nat →
  filter_candidates self clock candidates ≡ₚ omap (qualify self clock) candidates
  ∧ ∀ q : Q, with_score q (filter_candidates self clock candidates)
             = with_score q (omap (qualify self clock) candidates).
Proof.
  intros Hlen. unfold filter_candidates.
  rewrite take_ge by (now rewrite sort_by_score_perm).
  split; [apply sort_by_score_perm | intros q; apply sort_by_score_with_score].
Qed.

End Ranking.

(** ** Challenges: issue and verification *)

Section Challenges.

(** X3.  Verification has three outcomes, decided by the entry stored
    under the submitted username alone, and never changes the recruiter:
    true when the entry is an invitation whose challenge is the submitted
    response, false when there is no entry or the challenge differs, and
    [KeyError] when the username is the id of a stored request, whose
    dictionary has no challenge. *)
Theorem verify_registration_challenge_outcomes (r : registration) (self : recruiter) :
  let entry := pending_registrations self !! default "" (reg_username r) in
  let response := default "" (reg_challenge_response r) in
  snd (verify_registration_challenge r self) = self
  ∧ (fst (verify_registration_challenge r self) = Ok true
     ↔ ∃ timestamp status, entry = Some (Invitation response timestamp status))
  ∧ (fst (verify_registration_challenge r self) = Ok false
     ↔ entry = None
       ∨ ∃ expected timestamp status,
           entry = Some (Invitation expected timestamp status) ∧ expected ≠ response)
  ∧ (∀ e, fst (verify_registration_challenge r self) = Raise e
          ↔ e = KeyError "challenge" ∧ ∃ request, entry = Some (Request request)).
Proof.
  intros entry response. split; [apply verify_registration_challenge_state |].
  subst entry response. unfold verify_registration_challenge, bind, get_self.
  destruct (pending_registrations self !! default "" (reg_username r))
    as [[expected timestamp status|request]|]; simpl.
  - destruct (String.eqb_spec (default "" (reg_challenge_response r)) expected)
      as [Heq|Hne].
    + subst expected. split; [|split].
      * split; [eauto | reflexivity].
      * split; [discriminate |].
        intros [|(c & t & s & [= <- _ _] & Hc)]; [discriminate | congruence].
      * intros e. split; [discriminate | intros (_ & q & [=])].
    + split; [|split].
      * split; [discriminate | intros (t & s & [= -> _ _]); congruence].
      * split; [| reflexivity]. intros _. right. exists expected, timestamp, status.
        split; [reflexivity | congruence].
      * intros e. split; [discriminate | intros (_ & q & [=])].
  - split; [|split].
    + split; [discriminate | intros (t & s & [=])].
    + split; [discriminate | intros [|(c & t & s & [=] & _)]; discriminate].
    + intros e. split; [intros [= <-]; eauto | intros (-> & _); reflexivity].
  - split; [|split].
    + split; [discriminate | intros (t & s & [=])].
    + split; [tauto | reflexivity].
    + intros e. split; [discriminate | intros (_ & q & [=])].
Qed.

Lemma generate_registration_url_state (clock : wallclock)
    (challenge username : string) (self : recruiter) :
  snd (generate_registration_url clock challenge username self)
  = set_pending_registrations
      (<[username := Invitation challenge (isoformat clock) "invited"]>
         (pending_registrations self)) self.
Proof. reflexivity. Qed.

(** X4.  An identity has one live challenge: issuing a second challenge
    replaces the first, so that verification then accepts the second
    challenge and no other response, the first challenge included.  The
    entries of the other identities, the registered agents and the effects
    are left as they were. *)
Theorem new_challenge_replaces_previous (self : recruiter) (clock1 clock2 : wallclock)
    (challenge1 challenge2 username : string) (r : registration) :
  reg_username r = Some username →
  let reissued :=
    snd (generate_registration_url clock2 challenge2 username
           (snd (generate_registration_url clock1 challenge1 username self))) in
  (fst (verify_registration_challenge r reissued) = Ok true
   ↔ default "" (reg_challenge_response r) = challenge2)
  ∧ (challenge1 ≠ challenge2 →
     reg_challenge_response r = Some challenge1 →
     fst (verify_registration_challenge r reissued) = Ok false)
  ∧ (∀ other, other ≠ username →
       pending_registrations reissued !! other = pending_registrations self !! other)
  ∧ registered_agents reissued = registered_agents self
  ∧ effects reissued = effects self.
Proof.
  intros Hu reissued.
  assert (Hentry : pending_registrations reissued !! default "" (reg_username r)
                   = Some (Invitation challenge2 (isoformat clock2) "invited")).
  { rewrite Hu. apply generate_registration_url_pending. }
  pose proof (verify_registration_challenge_invited r reissued _ _ _ Hentry) as Hverify.
  split; [|split].
  - rewrite Hverify. simpl. rewrite <- String.eqb_eq.
    split; [now intros [= ->] | now intros ->].
  - intros Hne Hresponse. rewrite Hverify, Hresponse. simpl.
    destruct (String.eqb_spec challenge1 challenge2); [congruence | reflexivity].
  - subst reissued. rewrite !generate_registration_url_state. simpl.
    repeat split. intros other Hother.
    now rewrite !lookup_insert_ne by congruence.
Qed.

End Challenges.

(** ** Processing of a submission *)

Section Processing.
Context `{chain : ChainClient} `{source : CandidateSource}.

Lemma evaluate_registration_request_stored (clock : wallclock) (token : string)
    (r : registration) (self : recruiter) :
  evaluate_registration_request clock token
    (set_pending_registrations
       (<[token := Request (submitted_request clock token r)]>
          (pending_registrations self)) self)
  = (Ok tt, verified_outcome clock token r self).
Proof.
  unfold evaluate_registration_request, verified_outcome, bind, get_self,
    pending_request.
  cbn [pending_registrations set_pending_registrations].
  rewrite lookup_insert_eq.
  cbn [bind get_self]. unfold bind, get_self, ret.
  cbn [pending_registrations set_pending_registrations self_config].
  rewrite lookup_insert_eq.
  cbn [RegistrationRequest.moltbook_username submitted_request].
  destruct (get_candidate_data (default "" (reg_username r))) as [data|].
  - destruct (auto_approve_threshold (self_config self)
              <=? calculate_approval_score (self_config self) data)%Z.
    + rewrite (approve_registration_pending clock token
                 (submitted_request clock token r)) by apply lookup_insert_eq.
      cbn [pending_registrations set_pending_registrations registered_agents
           self_config effects].
      now rewrite delete_insert_eq.
    + unfold set_request_status, queue_manual_review, pending_request, modify, bind,
        get_self.
      cbn [pending_registrations set_pending_registrations].
      rewrite alter_insert_eq, lookup_insert_eq. reflexivity.
  - unfold set_request_status, modify.
    cbn [pending_registrations set_pending_registrations].
    now rewrite alter_insert_eq.
Qed.

Lemma verify_registration_challenge_raises (r : registration) (self : recruiter)
    (e : exn) :
  fst (verify_registration_challenge r self) = Raise e → e = KeyError "challenge".
Proof.
  unfold verify_registration_challenge, bind, get_self.
  destruct (pending_registrations self !! default "" (reg_username r))
    as [[expected timestamp status|request]|]; simpl; [discriminate | | discriminate].
  now intros [= <-].
Qed.

(** The three ways in which [process_registration_request] ends. *)
Lemma process_registration_request_cases (now : Z) (clock : wallclock)
    (token : string) (r : registration) (self : recruiter) :
  let ownership :=
    verify_address_ownership now (default "" (reg_username r))
      (default "" (reg_blockchain_address r))
      (default "" (reg_verification_signature r)) in
  (∃ e, fst (verify_registration_challenge r self) = Raise e
        ∧ process_registration_request now clock token r self = (Raise e, self))
  ∨ ((fst (verify_registration_challenge r self) = Ok false
      ∨ fst (verify_registration_challenge r self) = Ok true ∧ ownership = Ok false)
     ∧ process_registration_request now clock token r self = (Ok tt, self))
  ∨ (fst (verify_registration_challenge r self) = Ok true
     ∧ ownership = Ok true
     ∧ process_registration_request now clock token r self
       = (Ok tt, verified_outcome clock token r self)).
Proof.
  intros ownership.
  pose proof (verify_registration_challenge_state r self) as Hstate.
  unfold process_registration_request, bind.
  destruct (verify_registration_challenge r self) as [[[|]|e] self'];
    simpl in Hstate; subst self'; simpl.
  - unfold lift_result. subst ownership.
    rewrite verify_address_ownership_eq.
    destruct (match recover_message _ _ with Ok _ => _ | Raise _ => _ end); simpl.
    + right. right. repeat split.
      unfold create_registration_request, bind, modify, ret.
      apply evaluate_registration_request_stored.
    + right. left. split; [right; split; reflexivity | reflexivity].
  - right. left. split; [left; reflexivity | reflexivity].
  - left. exists e. split; reflexivity.
Qed.

(** X5.  With the client the recruiter runs with, whose
    [recover_message] raises on the digest it is handed, no submission
    passes the ownership check.  [process_registration_request] then
    leaves the recruiter as it was for every submission: no request is
    created, no agent is registered and nothing is sent or granted; and
    it ends as the challenge check does, normally or with the exception
    of that check. *)
Theorem no_submission_passes_ownership (now : Z) (clock : wallclock)
    (token : string) (r : registration) (self : recruiter) :
  raises_on_digest →
  verify_address_ownership now (default "" (reg_username r))
    (default "" (reg_blockchain_address r))
    (default "" (reg_verification_signature r)) = Ok false
  ∧ process_registration_request now clock token r self
    = (match fst (verify_registration_challenge r self) with
       | Ok _ => Ok tt
       | Raise e => Raise e
       end, self).
Proof.
  intros Hraises.
  pose proof (verify_address_ownership_raises Hraises now
                (default "" (reg_username r)) (default "" (reg_blockchain_address r))
                (default "" (reg_verification_signature r))) as Hownership.
  split; [exact Hownership |].
  destruct (process_registration_request_cases now clock token r self)
    as [(e & -> & Hp)|[([->|[-> _]] & Hp)|(_ & Htrue & _)]];
    [exact Hp | exact Hp | exact Hp | congruence].
Qed.

(** X6.  A submission whose ownership check fails leaves the recruiter as
    it was: the call returns, no request is created and no status is
    recorded.  When the challenge check raises, the exception leaves
    [process_registration_request] with the recruiter as it was. *)
Theorem unverified_submission_changes_nothing (now : Z) (clock : wallclock)
    (token : string) (r : registration) (self : recruiter) :
  (fst (verify_registration_challenge r self) = Ok true →
   verify_address_ownership now (default "" (reg_username r))
     (default "" (reg_blockchain_address r))
     (default "" (reg_verification_signature r)) = Ok false →
   process_registration_request now clock token r self = (Ok tt, self))
  ∧ (∀ e, fst (verify_registration_challenge r self) = Raise e →
          process_registration_request now clock token r self = (Raise e, self)).
Proof.
  destruct (process_registration_request_cases now clock token r self)
    as [(e & He & Hp)|[(Hf & Hp)|(Hc & Ho & Hp)]].
  - split.
    + intros Hc. congruence.
    + intros e' He'. congruence.
  - split.
    + intros _ _. exact Hp.
    + intros e He. destruct Hf as [Hf|[Hf _]]; congruence.
  - split.
    + intros _ Ho'. congruence.
    + intros e He. congruence.
Qed.

(** X7.  [process_registration_request] registers an agent or issues an
    initial grant only for a submission that passed the challenge check
    and the ownership check and whose candidate data give an approval
    score at or above the threshold. *)
Theorem registration_requires_all_checks (now : Z) (clock : wallclock)
    (token : string) (r : registration) (self : recruiter) :
  let after := snd (process_registration_request now clock token r self) in
  registered_agents after ≠ registered_agents self
  ∨ (∃ username, grants_to username (effects after)
                 ≠ grants_to username (effects self)) →
  fst (verify_registration_challenge r self) = Ok true
  ∧ verify_address_ownership now (default "" (reg_username r))
      (default "" (reg_blockchain_address r))
      (default "" (reg_verification_signature r)) = Ok true
  ∧ ∃ data,
      get_candidate_data (default "" (reg_username r)) = Some data
      ∧ (auto_approve_threshold (self_config self)
           ≤ calculate_approval_score (self_config self) data)%Z.
Proof.
  intros after Hchanged. subst after.
  destruct (process_registration_request_cases now clock token r self)
    as [(e & _ & Hp)|[(_ & Hp)|(Hc & Ho & Hp)]]; rewrite Hp in Hchanged;
    simpl in Hchanged.
  - destruct Hchanged as [H|[u H]]; congruence.
  - destruct Hchanged as [H|[u H]]; congruence.
  - split; [exact Hc |]. split; [exact Ho |].
    unfold verified_outcome in Hchanged.
    cbn [RegistrationRequest.moltbook_username submitted_request] in Hchanged.
    destruct (get_candidate_data (default "" (reg_username r))) as [data|].
    + exists data. split; [reflexivity |].
      destruct (Z.leb_spec (auto_approve_threshold (self_config self))
                  (calculate_approval_score (self_config self) data))
        as [Hle|Hlt]; [exact Hle |].
      exfalso. destruct Hchanged as [H|[u H]]; simpl in H; [congruence |].
      unfold grants_to in H. rewrite List.filter_app, length_app in H.
      simpl in H. lia.
    + exfalso. destruct Hchanged as [H|[u H]]; simpl in H; congruence.
Qed.

(** X8.  Evaluation and approval of an id that names no request change
    nothing: for an unknown id [evaluate_registration_request] returns at
    once while [approve_registration] raises [KeyError] on the id; for the
    key of an invitation, whose dictionary has no username, both raise
    [KeyError] on that field. *)
Theorem evaluation_of_missing_request (clock : wallclock) (request_id : string)
    (self : recruiter) :
  (pending_registrations self !! request_id = None →
   evaluate_registration_request clock request_id self = (Ok tt, self)
   ∧ approve_registration clock request_id self = (Raise (KeyError request_id), self))
  ∧ (∀ challenge timestamp status,
       pending_registrations self !! request_id
         = Some (Invitation challenge timestamp status) →
       evaluate_registration_request clock request_id self
         = (Raise (KeyError "moltbook_username"), self)
       ∧ approve_registration clock request_id self
         = (Raise (KeyError "moltbook_username"), self)).
Proof.
  split.
  - intros Habsent. split; [| now apply approve_registration_absent].
    unfold evaluate_registration_request, bind, get_self. now rewrite Habsent.
  - intros challenge timestamp status Hinvitation.
    unfold evaluate_registration_request, approve_registration, pending_request,
      bind, get_self.
    rewrite Hinvitation. cbn. rewrite Hinvitation. split; reflexivity.
Qed.

Lemma settled_insert (key : string) (entry : pending_entry) (self : recruiter) :
  settled self → entry_status entry ≠ "pending" →
  settled (set_pending_registrations (<[key := entry]> (pending_registrations self))
             self).
Proof.
  intros Hsettled Hentry k e. cbn. rewrite lookup_insert.
  destruct (decide (key = k)); [now intros [= <-] | apply Hsettled].
Qed.

Lemma verified_outcome_settled (clock : wallclock) (token : string)
    (r : registration) (self : recruiter) :
  settled self → settled (verified_outcome clock token r self).
Proof.
  intros Hsettled. unfold verified_outcome.
  destruct (get_candidate_data _) as [data|].
  - destruct (_ <=? _)%Z.
    + intros k e. cbn. intros Hk. apply lookup_delete_Some in Hk as [_ Hk].
      now apply (Hsettled k).
    + intros k e. cbn. rewrite lookup_insert.
      destruct (decide (token = k)); [now intros [= <-] | apply Hsettled].
  - now apply settled_insert.
Qed.

Lemma process_registration_request_settled (now : Z) (clock : wallclock)
    (token : string) (r : registration) (self : recruiter) :
  settled self → settled (snd (process_registration_request now clock token r self)).
Proof.
  intros Hsettled.
  destruct (process_registration_request_cases now clock token r self)
    as [(e & _ & Hp)|[(_ & Hp)|(_ & _ & Hp)]]; rewrite Hp; simpl;
    [assumption | assumption | now apply verified_outcome_settled].
Qed.

Lemma settled_metrics (clock : wallclock) (self : recruiter) :
  settled self →
  metrics_pending_registrations (update_recruitment_metrics clock self) = 0%Z.
Proof.
  intros Hsettled. unfold update_recruitment_metrics. cbn.
  assert (Hall : Forall (λ e, entry_status e ≠ "pending")
                   (map snd (map_to_list (pending_registrations self)))).
  { apply Forall_forall. intros e He. apply list_elem_of_fmap in He as ([k e'] & -> & He).
    apply elem_of_map_to_list in He. now apply (Hsettled k). }
  induction Hall as [|e l He _ IH]; [reflexivity |].
  simpl. destruct (String.eqb_spec (entry_status e) "pending"); [contradiction | exact IH].
Qed.

(** X9.  No request is left with the status [pending]: a request is
    evaluated in the call that creates it, which rejects it, approves and
    removes it, or puts it under manual review.  Invitations have the
    status [invited].  Hence the count of pending registrations in the
    metrics saved by [update_recruitment_metrics] is 0, however many
    invitations and submissions the recruiter has handled. *)
Theorem no_request_left_pending (now : Z) (clock clock' : wallclock)
    (token challenge username : string) (r : registration) (self : recruiter) :
  settled self →
  settled (snd (generate_registration_url clock challenge username self))
  ∧ settled (snd (process_registration_request now clock token r self))
  ∧ metrics_pending_registrations
      (update_recruitment_metrics clock'
         (snd (process_registration_request now clock token r self))) = 0%Z.
Proof.
  intros Hsettled. split; [|split].
  - rewrite generate_registration_url_state. now apply settled_insert.
  - now apply process_registration_request_settled.
  - now apply settled_metrics, process_registration_request_settled.
Qed.

End Processing.

(** ** Approval score *)

Section ApprovalScore.

Lemma size_list_to_set_le (l : list string) :
  (size (list_to_set l : gset string) ≤ length l)%nat.
Proof.
  induction l as [|x l IH]; [rewrite list_to_set_nil, size_empty; simpl; lia |].
  rewrite list_to_set_cons. simpl.
  rewrite size_union_alt, size_singleton.
  assert (Hsub : (list_to_set l : gset string) ∖ {[x]} ⊆ list_to_set l) by set_solver.
  apply subseteq_size in Hsub. lia.
Qed.

Lemma spec_matches_le (l categories : list string) :
  (0 ≤ spec_matches l categories ≤ Z.of_nat (length categories))%Z.
Proof.
  unfold spec_matches. split; [lia |].
  assert (Hsub : (list_to_set l : gset string) ∩ list_to_set categories
                 ⊆ list_to_set categories) by set_solver.
  apply subseteq_size in Hsub.
  pose proof (size_list_to_set_le categories). lia.
Qed.

(** X10.  The approval score is the sum of four independent parts: 100
    for a karma at or above the threshold, 50 for a post in the last 3
    days, 20 for each specialization among the configured categories, and
    30 for a community rating of 4.5 or more.  It is never negative and
    never exceeds 180 plus 20 for each configured category. *)
Theorem approval_score_parts (cfg : config) (d : candidate_data) :
  let matches :=
    spec_matches (default [] (cd_specializations d)) (specialization_categories cfg) in
  calculate_approval_score cfg d
  = ((if (auto_approve_threshold cfg <=? default 0 (cd_karma d)) then 100 else 0)
     + (if (default 999 (cd_days_since_last_post d) <=? 3) then 50 else 0)
     + matches * 20
     + (if Qle_bool (9 # 2) (default 0%Q (cd_community_rating d)) then 30 else 0))%Z
  ∧ (0 ≤ calculate_approval_score cfg d
       ≤ 180 + 20 * Z.of_nat (length (specialization_categories cfg)))%Z.
Proof.
  intros matches.
  pose proof (spec_matches_le (default [] (cd_specializations d))
                (specialization_categories cfg)) as Hm.
  fold matches in Hm. unfold calculate_approval_score. fold matches.
  destruct (auto_approve_threshold cfg <=? default 0 (cd_karma d))%Z;
    destruct (default 999 (cd_days_since_last_post d) <=? 3)%Z;
    destruct (Qle_bool (9 # 2) (default 0%Q (cd_community_rating d)));
    split; lia.
Qed.

End ApprovalScore.

(** ** Onboarding *)

Section Onboarding.
Context `{source : CandidateSource}.

(** The agent that [complete_onboarding] leaves under [username]: the
    event appended, the karma refreshed when the profile can be fetched,
    and the weight computed from that karma. *)
Lemma complete_onboarding_registered (clock : wallclock) (username : string)
    (agent : AgentProfile.t) (self : recruiter) :
  registered_agents self !! username = Some agent →
  let karma :=
    match get_candidate_data username with
    | Some data => default 0%Z (cd_karma data)
    | None => AgentProfile.karma_score agent
    end in
  let onboarded :=
    set_governance_weight (Qmax 1 (inject_Z karma / 100))
      (set_karma_score karma (append_contribution (onboarding_event clock) agent)) in
  complete_onboarding clock username self
  = (Ok tt,
     {| self_config := self_config self;
        registered_agents := <[username := onboarded]> (registered_agents self);
        pending_registrations := pending_registrations self;
        agent_database := <[username := onboarded]> (registered_agents self);
        effects := effects self |}).
Proof.
  intros Hagent karma onboarded. subst karma onboarded.
  unfold complete_onboarding, calculate_governance_weight, update_agent,
    save_agent_database, bind, get_self, modify, ret.
  rewrite Hagent. cbn. rewrite lookup_alter_eq, Hagent. cbn.
  destruct (get_candidate_data username) as [data|]; cbn.
  - rewrite lookup_alter_eq, lookup_alter_eq, Hagent. cbn.
    unfold set_registered_agents, set_agent_database. cbn.
    rewrite !alter_alter_eq, (alter_alt_Some _ _ _ _ Hagent). reflexivity.
  - rewrite lookup_alter_eq, Hagent. cbn.
    unfold set_registered_agents, set_agent_database. cbn.
    rewrite !alter_alter_eq, (alter_alt_Some _ _ _ _ Hagent). reflexivity.
Qed.

(** X11.  [complete_onboarding] raises [KeyError] for a username that is
    not registered and changes nothing.  For a registered agent it appends
    one onboarding event to the history, refreshes the karma from the
    platform when the profile can be fetched, sets the governance weight
    to the larger of 1 and a hundredth of the karma, so that the weight
    is never below 1, saves the registry, and leaves the other agents
    untouched; the agent no longer awaits onboarding. *)
Theorem complete_onboarding_result (clock : wallclock) (username : string)
    (self : recruiter) :
  (registered_agents self !! username = None →
   complete_onboarding clock username self = (Raise (KeyError username), self))
  ∧ (∀ agent, registered_agents self !! username = Some agent →
       let after := snd (complete_onboarding clock username self) in
       ∃ onboarded,
         fst (complete_onboarding clock username self) = Ok tt
         ∧ registered_agents after !! username = Some onboarded
         ∧ AgentProfile.contribution_history onboarded
           = AgentProfile.contribution_history agent ++ [onboarding_event clock]
         ∧ AgentProfile.karma_score onboarded
           = match get_candidate_data username with
             | Some data => default 0%Z (cd_karma data)
             | None => AgentProfile.karma_score agent
             end
         ∧ AgentProfile.governance_weight onboarded
           = Qmax 1 (inject_Z (AgentProfile.karma_score onboarded) / 100)
         ∧ (1 <= AgentProfile.governance_weight onboarded)%Q
         ∧ awaits_onboarding onboarded = false
         ∧ (∀ other, other ≠ username →
              registered_agents after !! other = registered_agents self !! other)
         ∧ agent_database after = registered_agents after).
Proof.
  split.
  - intros Habsent. unfold complete_onboarding, bind, get_self. now rewrite Habsent.
  - intros agent Hagent after. subst after.
    rewrite (complete_onboarding_registered clock username agent self Hagent).
    exists (onboarded_agent clock username agent).
    cbn [fst snd registered_agents agent_database].
    split; [reflexivity |]. split; [apply lookup_insert_eq |].
    split; [reflexivity |]. split; [reflexivity |]. split; [reflexivity |].
    split; [apply Q.le_max_l |]. split.
    + unfold awaits_onboarding, onboarded_agent. cbn.
      rewrite length_app. cbn.
      replace (length (AgentProfile.contribution_history agent) + 1)%nat
        with (S (length (AgentProfile.contribution_history agent))) by lia.
      apply andb_false_r.
    + split; [| reflexivity]. intros other Hother.
      now rewrite lookup_insert_ne by congruence.
Qed.

Lemma for_each_onboarding (clock : wallclock) (usernames : list string)
    (self : recruiter) :
  for_each usernames (λ username,
    do self <- get_self;
    match registered_agents self !! username with
    | Some agent =>
        if awaits_onboarding agent then complete_onboarding clock username
        else ret tt
    | None => ret tt
    end) self
  = (Ok tt, foldl (onboarding_step clock) self usernames).
Proof.
  revert self. induction usernames as [|k ks IH]; intros self; [reflexivity |].
  cbn [for_each foldl]. unfold bind at 1. unfold bind at 1, get_self at 1.
  unfold onboarding_step at 2.
  destruct (registered_agents self !! k) as [agent|] eqn:Hagent.
  - destruct (awaits_onboarding agent).
    + rewrite (complete_onboarding_registered clock k agent self Hagent).
      cbn [snd]. apply IH.
    + apply IH.
  - apply IH.
Qed.

Lemma onboard_verified_agents_eq (clock : wallclock) (self : recruiter) :
  onboard_verified_agents clock self
  = (Ok tt,
     foldl (onboarding_step clock) self (map_to_list (registered_agents self)).*1).
Proof.
  unfold onboard_verified_agents. unfold bind at 1, get_self at 1.
  apply for_each_onboarding.
Qed.

Lemma onboarding_step_lookup (clock : wallclock) (self : recruiter)
    (username k : string) :
  registered_agents (onboarding_step clock self username) !! k
  = if decide (username = k)
    then (λ a, if awaits_onboarding a then onboarded_agent clock k a else a)
           <$> registered_agents self !! k
    else registered_agents self !! k.
Proof.
  unfold onboarding_step.
  destruct (registered_agents self !! username) as [agent|] eqn:Hagent.
  - destruct (awaits_onboarding agent) eqn:Hawaits.
    + rewrite (complete_onboarding_registered clock username agent self Hagent).
      cbn [snd registered_agents]. rewrite lookup_insert.
      destruct (decide (username = k)) as [<-|]; [| reflexivity].
      rewrite Hagent. cbn. now rewrite Hawaits.
    + destruct (decide (username = k)) as [<-|]; [| reflexivity].
      rewrite Hagent. cbn. now rewrite Hawaits.
  - destruct (decide (username = k)) as [<-|]; [| reflexivity].
    now rewrite Hagent.
Qed.

Lemma onboarding_steps_lookup (clock : wallclock) (usernames : list string)
    (self : recruiter) (k : string) :
  NoDup usernames →
  registered_agents (foldl (onboarding_step clock) self usernames) !! k
  = if decide (k ∈ usernames)
    then (λ a, if awaits_onboarding a then onboarded_agent clock k a else a)
           <$> registered_agents self !! k
    else registered_agents self !! k.
Proof.
  revert self. induction usernames as [|u us IH]; intros self Hnodup.
  - cbn. now rewrite decide_False by apply not_elem_of_nil.
  - apply NoDup_cons in Hnodup as [Hu Hus]. cbn [foldl]. rewrite (IH _ Hus).
    rewrite !onboarding_step_lookup.
    destruct (decide (u = k)) as [<-|Hne].
    + rewrite decide_False by assumption.
      now rewrite decide_True by apply list_elem_of_here.
    + destruct (decide (k ∈ us)) as [Hin|Hnin].
      * now rewrite decide_True by (now apply list_elem_of_further).
      * rewrite decide_False; [reflexivity |].
        intros Hin. apply elem_of_cons in Hin as [->|Hin]; congruence.
Qed.

Lemma onboarding_steps_frame (clock : wallclock) (usernames : list string)
    (self : recruiter) :
  self_config (foldl (onboarding_step clock) self usernames) = self_config self
  ∧ pending_registrations (foldl (onboarding_step clock) self usernames)
    = pending_registrations self
  ∧ effects (foldl (onboarding_step clock) self usernames) = effects self.
Proof.
  revert self. induction usernames as [|u us IH]; intros self; [now cbn |].
  cbn [foldl]. destruct (IH (onboarding_step clock self u)) as (Hc & Hp & He).
  rewrite Hc, Hp, He. unfold onboarding_step.
  destruct (registered_agents self !! u) as [agent|] eqn:Hagent; [| now idtac].
  destruct (awaits_onboarding agent); [| now idtac].
  now rewrite (complete_onboarding_registered clock u agent self Hagent).
Qed.

Lemma onboarding_steps_idle (clock : wallclock) (usernames : list string)
    (self : recruiter) :
  (∀ k a, registered_agents self !! k = Some a → awaits_onboarding a = false) →
  foldl (onboarding_step clock) self usernames = self.
Proof.
  intros Hidle. induction usernames as [|u us IH]; [reflexivity |].
  cbn [foldl].
  assert (Hstep : onboarding_step clock self u = self).
  { unfold onboarding_step.
    destruct (registered_agents self !! u) as [agent|] eqn:Hagent; [| reflexivity].
    now rewrite (Hidle u agent Hagent). }
  rewrite Hstep. exact IH.
Qed.

Lemma awaits_onboarding_onboarded (clock : wallclock) (k : string)
    (a : AgentProfile.t) :
  awaits_onboarding (if awaits_onboarding a then onboarded_agent clock k a else a)
  = false.
Proof.
  destruct (awaits_onboarding a) eqn:Ha; [| exact Ha].
  unfold awaits_onboarding, onboarded_agent. cbn. rewrite length_app. cbn.
  replace (length (AgentProfile.contribution_history a) + 1)%nat
    with (S (length (AgentProfile.contribution_history a))) by lia.
  apply andb_false_r.
Qed.

Lemma onboard_verified_agents_lookup (clock : wallclock) (self : recruiter)
    (username : string) :
  registered_agents (snd (onboard_verified_agents clock self)) !! username
  = (λ agent, if awaits_onboarding agent
              then onboarded_agent clock username agent else agent)
      <$> registered_agents self !! username.
Proof.
  rewrite onboard_verified_agents_eq. cbn [snd].
  rewrite onboarding_steps_lookup by apply NoDup_fst_map_to_list.
  destruct (decide _) as [Hin|Hnin]; [reflexivity |].
  destruct (registered_agents self !! username) as [agent|] eqn:Hagent;
    [| reflexivity].
  exfalso. apply Hnin. apply list_elem_of_fmap.
  exists (username, agent). split; [reflexivity |].
  now apply elem_of_map_to_list.
Qed.

(** X12.  [onboard_verified_agents] onboards exactly the agents that are
    verified and have an empty history, each as [complete_onboarding]
    does, and leaves the other agents, the pending set and the effects as
    they were.  After it no agent awaits onboarding, so that running it
    again changes nothing: no agent receives a second onboarding
    event. *)
Theorem onboard_verified_agents_once (clock clock' : wallclock) (self : recruiter) :
  let after := snd (onboard_verified_agents clock self) in
  fst (onboard_verified_agents clock self) = Ok tt
  ∧ (∀ username,
       registered_agents after !! username
       = (λ agent, if awaits_onboarding agent
                   then onboarded_agent clock username agent else agent)
           <$> registered_agents self !! username)
  ∧ (∀ username agent,
       registered_agents after !! username = Some agent →
       awaits_onboarding agent = false)
  ∧ pending_registrations after = pending_registrations self
  ∧ effects after = effects self
  ∧ onboard_verified_agents clock' after = (Ok tt, after).
Proof.
  intros after. subst after.
  pose proof (onboard_verified_agents_lookup clock self) as Hlookup.
  rewrite !onboard_verified_agents_eq in *. cbn [fst snd] in *.
  assert (Hidle : ∀ username agent,
    registered_agents
      (foldl (onboarding_step clock) self (map_to_list (registered_agents self)).*1)
      !! username = Some agent →
    awaits_onboarding agent = false).
  { intros username agent. rewrite Hlookup.
    destruct (registered_agents self !! username) as [a|]; [| discriminate].
    cbn. intros [= <-]. apply awaits_onboarding_onboarded. }
  destruct (onboarding_steps_frame clock (map_to_list (registered_agents self)).*1 self)
    as (_ & Hpending & Heffects).
  split; [reflexivity |]. split; [exact Hlookup |]. split; [exact Hidle |].
  split; [exact Hpending |]. split; [exact Heffects |].
  f_equal. now apply onboarding_steps_idle.
Qed.

End Onboarding.

(** ** Specialization breakdown *)

Section Breakdown.

Lemma occurrences_nonneg (spec : string) (l : list string) : (0 ≤ occurrences spec l)%Z.
Proof. unfold occurrences. lia. Qed.

Lemma occurrences_cons (spec s : string) (l : list string) :
  occurrences spec (s :: l)
  = ((if String.eqb spec s then 1 else 0) + occurrences spec l)%Z.
Proof. unfold occurrences. simpl. destruct (String.eqb spec s); simpl; lia. Qed.

Lemma occurrences_app (spec : string) (l1 l2 : list string) :
  occurrences spec (l1 ++ l2) = (occurrences spec l1 + occurrences spec l2)%Z.
Proof. unfold occurrences. rewrite List.filter_app, length_app. lia. Qed.

Lemma occurrences_pos (spec : string) (l : list string) :
  spec ∈ l → (1 ≤ occurrences spec l)%Z.
Proof.
  induction 1 as [s l|s s' l _ IH]; rewrite occurrences_cons.
  - rewrite String.eqb_refl. pose proof (occurrences_nonneg s l). lia.
  - destruct (String.eqb s s'); lia.
Qed.

(** The counting loop adds to each tally the occurrences it meets, and
    keeps every tally positive. *)
Lemma count_loop (l : list string) (breakdown : gmap string Z) (spec : string) :
  (∀ k n, breakdown !! k = Some n → (1 ≤ n)%Z) →
  foldl (λ b s, count_specialization s b) breakdown l !! spec
  = (if (default 0 (breakdown !! spec) + occurrences spec l =? 0)%Z then None
     else Some (default 0 (breakdown !! spec) + occurrences spec l)%Z)
  ∧ (∀ k n, foldl (λ b s, count_specialization s b) breakdown l !! k = Some n →
            (1 ≤ n)%Z).
Proof.
  revert breakdown. induction l as [|s l IH]; intros breakdown Hpos.
  - cbn [foldl]. split; [| exact Hpos].
    unfold occurrences. cbn. rewrite Z.add_0_r.
    destruct (breakdown !! spec) as [n|] eqn:Hn; cbn; [| reflexivity].
    pose proof (Hpos spec n Hn). now destruct (Z.eqb_spec n 0); [lia |].
  - cbn [foldl].
    assert (Hpos' : ∀ k n, count_specialization s breakdown !! k = Some n → (1 ≤ n)%Z).
    { intros k n. unfold count_specialization. rewrite lookup_insert.
      destruct (decide (s = k)); [| apply Hpos].
      intros [= <-]. destruct (breakdown !! s) as [m|] eqn:Hm; cbn; [| lia].
      pose proof (Hpos s m Hm). lia. }
    destruct (IH (count_specialization s breakdown) Hpos') as [Hlookup Hkeep].
    split; [| exact Hkeep]. rewrite Hlookup, occurrences_cons.
    unfold count_specialization at 1 2. rewrite lookup_insert.
    destruct (decide (s = spec)) as [->|Hne].
    + rewrite String.eqb_refl. cbn.
      replace (default 0 (breakdown !! spec) + 1 + occurrences spec l)%Z
        with (default 0 (breakdown !! spec) + (1 + occurrences spec l))%Z by lia.
      reflexivity.
    + destruct (String.eqb_spec spec s); [congruence |]. reflexivity.
Qed.

Lemma breakdown_loops (agents : list AgentProfile.t) (breakdown : gmap string Z) :
  foldl (λ b agent,
           foldl (λ b s, count_specialization s b) b
                 (AgentProfile.specialization agent))
        breakdown agents
  = foldl (λ b s, count_specialization s b) breakdown
      (concat (map AgentProfile.specialization agents)).
Proof.
  revert breakdown. induction agents as [|a agents IH]; intros breakdown;
    [reflexivity |].
  cbn [foldl map concat]. now rewrite IH, foldl_app.
Qed.

(** X13.  [get_specialization_breakdown] counts, for each specialization,
    how many times the registered agents list it, an agent that lists a
    specialization twice counting twice; a specialization that no agent
    lists has no entry, so that every count in the breakdown is at least
    1, and every specialization of a registered agent is counted. *)
Theorem specialization_breakdown_counts (self : recruiter) (spec : string) :
  let n := occurrences spec (listed_specializations self) in
  get_specialization_breakdown self !! spec = (if (n =? 0)%Z then None else Some n)
  ∧ (∀ m, get_specialization_breakdown self !! spec = Some m → (1 ≤ m)%Z)
  ∧ (∀ username agent,
       registered_agents self !! username = Some agent →
       spec ∈ AgentProfile.specialization agent →
       ∃ m, get_specialization_breakdown self !! spec = Some m ∧ (1 ≤ m)%Z).
Proof.
  intros n. unfold get_specialization_breakdown. rewrite breakdown_loops.
  fold (listed_specializations self).
  destruct (count_loop (listed_specializations self) ∅ spec) as [Hlookup Hpos].
  { intros k m. now rewrite lookup_empty. }
  rewrite lookup_empty in Hlookup. cbn [default] in Hlookup.
  rewrite !Z.add_0_l in Hlookup. fold n in Hlookup.
  split; [exact Hlookup |]. split; [apply Hpos |].
  intros username agent Hagent Hspec.
  assert (Hn : (1 ≤ n)%Z).
  { apply occurrences_pos. unfold listed_specializations.
    apply list_elem_of_In, in_concat. exists (AgentProfile.specialization agent).
    split; [| now apply list_elem_of_In].
    apply in_map. apply (in_map snd _ (username, agent)).
    now apply list_elem_of_In, elem_of_map_to_list. }
  exists n. rewrite Hlookup. destruct (Z.eqb_spec n 0); [lia |]. now split.
Qed.

End Breakdown.

(** ** Consistency of the recruiter *)

Section Consistency.
Context `{chain : ChainClient} `{source : CandidateSource}.

Lemma verified_outcome_consistent (clock : wallclock) (token : string)
    (r : registration) (self : recruiter) :
  consistent self → consistent (verified_outcome clock token r self).
Proof.
  intros (Hagents & Hrequests & Hsaved). unfold verified_outcome.
  assert (Hstored : ∀ status k q,
    <[token := Request (RegistrationRequest.set_status status
                          (submitted_request clock token r))]>
      (pending_registrations self) !! k = Some (Request q) →
    RegistrationRequest.request_id q = k).
  { intros status k q. rewrite lookup_insert.
    destruct (decide (token = k)) as [<-|]; [now intros [= <-] | apply Hrequests]. }
  destruct (get_candidate_data _) as [data|].
  - destruct (_ <=? _)%Z.
    + split; [|split]; cbn.
      * intros k p. rewrite lookup_insert.
        destruct (decide (_ = k)) as [<-|]; [now intros [= <-] | apply Hagents].
      * intros k q Hk. apply lookup_delete_Some in Hk as [_ Hk].
        now apply Hrequests.
      * reflexivity.
    + split; [|split]; cbn; [exact Hagents | apply Hstored | exact Hsaved].
  - split; [|split]; cbn; [exact Hagents | apply Hstored | exact Hsaved].
Qed.

Lemma onboarding_step_consistent (clock : wallclock) (self : recruiter)
    (username : string) :
  consistent self → consistent (onboarding_step clock self username).
Proof.
  intros Hself. unfold onboarding_step.
  destruct (registered_agents self !! username) as [agent|] eqn:Hagent;
    [| exact Hself].
  destruct (awaits_onboarding agent); [| exact Hself].
  rewrite (complete_onboarding_registered clock username agent self Hagent).
  destruct Hself as (Hagents & Hrequests & Hsaved).
  split; [|split]; cbn; [| exact Hrequests | reflexivity].
  intros k p. rewrite lookup_insert.
  destruct (decide (username = k)) as [<-|]; [| apply Hagents].
  intros [= <-]. cbn. now apply Hagents.
Qed.

(** X14.  The recruiter stays consistent: when every profile is stored
    under its own username, every request under its own id, and the saved
    copy of the registry equals the registry, the same holds after an
    invitation, after the processing of a submission, after the
    onboarding of an agent and after the onboarding loop, whatever their
    outcome. *)
Theorem consistency_preserved (now : Z) (clock : wallclock)
    (token challenge username : string) (r : registration) (self : recruiter) :
  consistent self →
  consistent (snd (generate_registration_url clock challenge username self))
  ∧ consistent (snd (process_registration_request now clock token r self))
  ∧ consistent (snd (complete_onboarding clock username self))
  ∧ consistent (snd (onboard_verified_agents clock self)).
Proof.
  intros Hself. split; [|split; [|split]].
  - destruct Hself as (Hagents & Hrequests & Hsaved).
    rewrite generate_registration_url_state.
    split; [|split]; cbn; [exact Hagents | | exact Hsaved].
    intros k q. rewrite lookup_insert.
    destruct (decide (username = k)); [discriminate | apply Hrequests].
  - destruct (process_registration_request_cases now clock token r self)
      as [(e & _ & Hp)|[(_ & Hp)|(_ & _ & Hp)]]; rewrite Hp; cbn [snd];
      [exact Hself | exact Hself | now apply verified_outcome_consistent].
  - destruct (registered_agents self !! username) as [agent|] eqn:Hagent.
    + pose proof (onboarding_step_consistent clock self username Hself) as Hstep.
      unfold onboarding_step in Hstep. rewrite Hagent in Hstep.
      destruct (awaits_onboarding agent); [exact Hstep |].
      rewrite (complete_onboarding_registered clock username agent self Hagent).
      destruct Hself as (Hagents & Hrequests & Hsaved).
      split; [|split]; cbn; [| exact Hrequests | reflexivity].
      intros k p. rewrite lookup_insert.
      destruct (decide (username = k)) as [<-|]; [| apply Hagents].
      intros [= <-]. cbn. now apply Hagents.
    + unfold complete_onboarding, bind, get_self. now rewrite Hagent.
  - rewrite onboard_verified_agents_eq. cbn [snd].
    generalize (map_to_list (registered_agents self)).*1. intros usernames.
    revert self Hself. induction usernames as [|u us IH]; intros self Hself;
      [exact Hself |].
    cbn [foldl]. apply IH. now apply onboarding_step_consistent.
Qed.

End Consistency.

(** ** Invitations *)

Section Invitations.

Lemma string_app_assoc (s1 s2 s3 : string) :
  (s1 +:+ s2) +:+ s3 = s1 +:+ (s2 +:+ s3).
Proof.
  induction s1 as [|a s1 IH]; [reflexivity |].
  change (String a ((s1 +:+ s2) +:+ s3) = String a (s1 +:+ (s2 +:+ s3))).
  now rewrite IH.
Qed.

(** The state after [send_invitation] is the one [generate_registration_url]
    leaves, and its outcome is that of formatting the chosen template. *)
Lemma send_invitation_eq (clock : wallclock) (challenge : string) (c : candidate)
    (self : recruiter) (template : string) :
  recruitment_templates !! choose_template (default [] (cand_specializations c))
    = Some template →
  send_invitation clock challenge c self
  = (result_bind
       (format template
          [ ("username", default "" (cand_username c));
            ("specialization",
             String.concat ", " (take 3 (default [] (cand_specializations c))));
            ("registration_url",
             "https://governance.moltbook.com/register?user="
             +:+ default "" (cand_username c) +:+ "&challenge=" +:+ challenge) ])
       (λ message, Ok (default "" (cand_username c), message)),
     snd (generate_registration_url clock challenge (default "" (cand_username c))
            self)).
Proof.
  intros Htemplate. unfold send_invitation, bind at 1.
  unfold generate_registration_url at 1, bind at 1, modify at 1, ret at 1.
  unfold bind at 1. rewrite Htemplate. unfold ret at 1, bind, lift_result.
  cbn [snd]. now destruct (format template _).
Qed.

(** The three special templates have no field for the link. *)
Lemma special_templates_ignore_link (template : string)
    (username specialization url url' : string) :
  template = developer_invitation ∨ template = trader_invitation
  ∨ template = researcher_invitation →
  (∃ message,
     format template [ ("username", username); ("specialization", specialization);
                       ("registration_url", url) ] = Ok message)
  ∧ format template [ ("username", username); ("specialization", specialization);
                      ("registration_url", url) ]
    = format template [ ("username", username); ("specialization", specialization);
                        ("registration_url", url') ].
Proof.
  intros [->|[->| ->]]; (split; [eexists |]; vm_compute; reflexivity).
Qed.

(** The general template ends with the link. *)
Lemma general_template_ends_with_link (username specialization url : string) :
  ∃ before,
    format general_invitation
      [ ("username", username); ("specialization", specialization);
        ("registration_url", url) ]
    = Ok (before +:+ "Registration Link: " +:+ url +:+ newline).
Proof.
  exists (String.substring 0 68 general_invitation +:+ username
          +:+ String.substring 78 402 general_invitation +:+ specialization
          +:+ String.substring 496 699 general_invitation).
  rewrite !string_app_assoc. vm_compute. reflexivity.
Qed.

Lemma choose_template_known (specializations : list string) :
  (choose_template specializations = "general_invitation"
   ∧ recruitment_templates !! choose_template specializations
     = Some general_invitation)
  ∨ (choose_template specializations ≠ "general_invitation"
     ∧ ∃ template,
         recruitment_templates !! choose_template specializations = Some template
         ∧ (template = developer_invitation ∨ template = trader_invitation
            ∨ template = researcher_invitation)).
Proof.
  unfold choose_template.
  destruct (_ || _);
    [right; split; [discriminate |]; eexists; split; [vm_compute; reflexivity | tauto] |].
  destruct (_ || _);
    [right; split; [discriminate |]; eexists; split; [vm_compute; reflexivity | tauto] |].
  destruct (_ || _);
    [right; split; [discriminate |]; eexists; split; [vm_compute; reflexivity | tauto] |].
  left. split; [reflexivity | vm_compute; reflexivity].
Qed.

Lemma listed_In (s : string) (l : list string) :
  existsb (String.eqb s) l = true ↔ In s l.
Proof.
  rewrite existsb_exists. split.
  - intros (x & Hx & Heq). apply String.eqb_eq in Heq. now subst.
  - intros Hin. exists s. split; [exact Hin | apply String.eqb_refl].
Qed.

Lemma choose_template_special (specializations : list string) :
  choose_template specializations ≠ "general_invitation"
  ↔ ∃ s, In s ["developer"; "programming"; "trading"; "finance"; "research";
               "analysis"]
         ∧ In s specializations.
Proof.
  unfold choose_template.
  destruct (existsb (String.eqb "developer") specializations) eqn:H1;
    [split; [intros _; exists "developer"; split; [simpl; tauto | now apply listed_In]
            | discriminate] |].
  destruct (existsb (String.eqb "programming") specializations) eqn:H2;
    [split; [intros _; exists "programming"; split; [simpl; tauto | now apply listed_In]
            | discriminate] |].
  destruct (existsb (String.eqb "trading") specializations) eqn:H3;
    [split; [intros _; exists "trading"; split; [simpl; tauto | now apply listed_In]
            | discriminate] |].
  destruct (existsb (String.eqb "finance") specializations) eqn:H4;
    [split; [intros _; exists "finance"; split; [simpl; tauto | now apply listed_In]
            | discriminate] |].
  destruct (existsb (String.eqb "research") specializations) eqn:H5;
    [split; [intros _; exists "research"; split; [simpl; tauto | now apply listed_In]
            | discriminate] |].
  destruct (existsb (String.eqb "analysis") specializations) eqn:H6;
    [split; [intros _; exists "analysis"; split; [simpl; tauto | now apply listed_In]
            | discriminate] |].
  cbn. split; [congruence |].
  intros (s & Hs & Hin). apply listed_In in Hin. simpl in Hs.
  destruct Hs as [<-|[<-|[<-|[<-|[<-|[<-|[]]]]]]]; congruence.
Qed.

(** X15.  [send_invitation] never raises and stores the challenge it
    draws, as [generate_registration_url] does.  The registration link,
    which carries the challenge, reaches the candidate only with the
    general template, whose message ends with it.  A candidate who lists
    developer, programming, trading, finance, research or analysis gets
    one of the three other templates, which have no field for the link:
    the message sent is the same whatever the challenge. *)
Theorem invitation_link_only_in_general_template (clock : wallclock)
    (challenge : string) (c : candidate) (self : recruiter) :
  let username := default "" (cand_username c) in
  let specializations := default [] (cand_specializations c) in
  snd (send_invitation clock challenge c self)
    = snd (generate_registration_url clock challenge username self)
  ∧ (∃ message, fst (send_invitation clock challenge c self) = Ok (username, message))
  ∧ (choose_template specializations ≠ "general_invitation"
     ↔ ∃ s, In s ["developer"; "programming"; "trading"; "finance"; "research";
                  "analysis"]
            ∧ In s specializations)
  ∧ (choose_template specializations ≠ "general_invitation" →
     ∀ challenge',
       fst (send_invitation clock challenge' c self)
       = fst (send_invitation clock challenge c self))
  ∧ (choose_template specializations = "general_invitation" →
     ∃ before,
       fst (send_invitation clock challenge c self)
       = Ok (username,
             before +:+ "Registration Link: "
             +:+ ("https://governance.moltbook.com/register?user=" +:+ username
                  +:+ "&challenge=" +:+ challenge)
             +:+ newline)).
Proof.
  intros username specializations. subst username specializations.
  pose proof (choose_template_special (default [] (cand_specializations c)))
    as Hchoice.
  destruct (choose_template_known (default [] (cand_specializations c)))
    as [[Hkey Htemplate]|(Hkey & template & Htemplate & Hspecial)].
  - rewrite (send_invitation_eq clock challenge c self _ Htemplate).
    cbn [fst snd].
    destruct (general_template_ends_with_link (default "" (cand_username c))
                (String.concat ", " (take 3 (default [] (cand_specializations c))))
                ("https://governance.moltbook.com/register?user="
                 +:+ default "" (cand_username c) +:+ "&challenge=" +:+ challenge))
      as [before Hformat].
    rewrite Hformat. cbn [result_bind].
    split; [reflexivity |]. split; [eauto |]. split; [exact Hchoice |].
    split; [congruence |].
    intros _. exists before. reflexivity.
  - rewrite (send_invitation_eq clock challenge c self template Htemplate).
    cbn [fst snd]. split; [reflexivity |].
    destruct (special_templates_ignore_link template
                (default "" (cand_username c))
                (String.concat ", " (take 3 (default [] (cand_specializations c))))
                ("https://governance.moltbook.com/register?user="
                 +:+ default "" (cand_username c) +:+ "&challenge=" +:+ challenge)
                "" Hspecial) as [[message Hmessage] _].
    split; [rewrite Hmessage; cbn; eauto |]. split; [exact Hchoice |].
    split; [| congruence].
    intros _ challenge'.
    rewrite (send_invitation_eq clock challenge' c self template Htemplate).
    cbn [fst]. f_equal.
    destruct (special_templates_ignore_link template
                (default "" (cand_username c))
                (String.concat ", " (take 3 (default [] (cand_specializations c))))
                ("https://governance.moltbook.com/register?user="
                 +:+ default "" (cand_username c) +:+ "&challenge=" +:+ challenge')
                ("https://governance.moltbook.com/register?user="
                 +:+ default "" (cand_username c) +:+ "&challenge=" +:+ challenge)
                Hspecial) as [_ Hsame].
    exact Hsame.
Qed.

End Invitations.

(** ** Status lookup *)

Section StatusLookup.
Context `{fmt : Formatter}.




End StatusLookup.

(** ** From approval to onboarding *)

Section ApprovalThenOnboarding.
Context `{source : CandidateSource}.

(** X17.  Approval and onboarding compose.  [approve_registration] on a
    pending request leaves under its username a fresh profile, verified,
    with an empty history, the karma 0 and the weight 0, whatever profile
    was stored there before.  This profile awaits onboarding, and the
    next run of [onboard_verified_agents] gives it its onboarding event,
    the karma fetched from the platform at that time (0 when the fetch
    gives nothing) and the weight computed from that karma. *)
Theorem approval_then_onboarding (clock clock' : wallclock) (request_id : string)
    (request : RegistrationRequest.t) (self : recruiter) :
  pending_registrations self !! request_id = Some (Request request) →
  let username := RegistrationRequest.moltbook_username request in
  let profile := approved_profile clock request in
  let approved := snd (approve_registration clock request_id self) in
  let onboarded := snd (onboard_verified_agents clock' approved) in
  let karma :=
    match get_candidate_data username with
    | Some data => default 0%Z (cd_karma data)
    | None => 0%Z
    end in
  registered_agents approved !! username = Some profile
  ∧ awaits_onboarding profile = true
  ∧ ∃ agent,
      registered_agents onboarded !! username = Some agent
      ∧ AgentProfile.karma_score agent = karma
      ∧ AgentProfile.governance_weight agent = Qmax 1 (inject_Z karma / 100)
      ∧ AgentProfile.contribution_history agent = [onboarding_event clock']
      ∧ AgentProfile.blockchain_address agent
        = RegistrationRequest.blockchain_address request
      ∧ AgentProfile.identity_proof agent
        = RegistrationRequest.verification_challenge request.
Proof.
  intros Hpending username profile approved onboarded karma.
  assert (Happroved : registered_agents approved !! username = Some profile).
  { subst approved username profile.
    rewrite (approve_registration_pending clock request_id request self Hpending).
    cbn [snd registered_agents]. apply lookup_insert_eq. }
  split; [exact Happroved |]. split; [reflexivity |].
  exists (onboarded_agent clock' username profile). subst onboarded.
  rewrite onboard_verified_agents_lookup, Happroved. cbn [fmap option_fmap option_map].
  change (awaits_onboarding profile) with true. cbn iota.
  split; [reflexivity |].
  unfold onboarded_agent. subst karma.
  destruct (get_candidate_data username); repeat split.
Qed.

End ApprovalThenOnboarding.

(** ** The further properties on the sample data *)

Section FurtherExamples.
#[local] Existing Instance Reference.iso_parser.
#[local] Existing Instance Reference.chain_client.
#[local] Existing Instance Reference.candidate_source.
#[local] Existing Instance Reference.formatter.

(** A candidate listed twice in the input is returned twice. *)
Lemma filter_candidates_keeps_all_witness :
  (length (omap (qualify fresh_recruiter new_year) [dreamer; sleeper; dreamer]) ≤ 10)%nat
  ∧ filter_candidates fresh_recruiter new_year [dreamer; sleeper; dreamer]
    ≡ₚ omap (qualify fresh_recruiter new_year) [dreamer; sleeper; dreamer]
  ∧ map cand_username
      (filter_candidates fresh_recruiter new_year [dreamer; sleeper; dreamer])
    = [Some "dreamer"; Some "dreamer"].
Proof.
  split; [vm_compute; lia |]. split; [| vm_compute; reflexivity].
  apply (filter_candidates_keeps_all fresh_recruiter new_year
           [dreamer; sleeper; dreamer]).
  vm_compute. lia.
Defined.

(** After a second invitation, the first challenge of alice is refused. *)
Lemma new_challenge_replaces_previous_witness :
  reg_username alice_registration = Some "alice"
  ∧ alice_challenge ≠ second_challenge
  ∧ fst (verify_registration_challenge alice_registration reinvited_recruiter)
    = Ok false.
Proof.
  split; [reflexivity |]. split; [discriminate |].
  unfold reinvited_recruiter, invited_recruiter.
  apply (proj1 (proj2 (new_challenge_replaces_previous fresh_recruiter new_year
                         new_year_later alice_challenge second_challenge "alice"
                         alice_registration eq_refl)));
    [discriminate | reflexivity].
Defined.

(** The submission of alice, which answers the challenge, is processed
    with the client of the recruiter: the ownership check fails and the
    recruiter is left as it was. *)
Lemma no_submission_passes_ownership_witness :
  @raises_on_digest Reference.eth_account_client
  ∧ @process_registration_request Reference.eth_account_client
      Reference.candidate_source processing_time new_year_later first_token
      alice_registration invited_recruiter
    = (Ok tt, invited_recruiter).
Proof.
  split; [exact eth_account_raises_on_digest |].
  destruct (@no_submission_passes_ownership Reference.eth_account_client
              Reference.candidate_source processing_time new_year_later first_token
              alice_registration invited_recruiter eth_account_raises_on_digest)
    as [_ Hprocess].
  rewrite Hprocess. vm_compute. reflexivity.
Defined.

(** The grant issued to alice was preceded by the three checks. *)
Lemma registration_requires_all_checks_witness :
  fst (verify_registration_challenge alice_registration invited_recruiter) = Ok true
  ∧ verify_address_ownership processing_time "alice" alice_address alice_signature
    = Ok true
  ∧ ∃ data,
      get_candidate_data "alice" = Some data
      ∧ (200 ≤ calculate_approval_score default_config data)%Z.
Proof.
  refine (registration_requires_all_checks processing_time new_year_later
            first_token alice_registration invited_recruiter _).
  right. exists "alice". vm_compute. discriminate.
Defined.

Lemma settled_fresh : settled fresh_recruiter.
Proof. intros key entry. cbn. now rewrite lookup_empty. Qed.

Lemma consistent_fresh : consistent fresh_recruiter.
Proof.
  split; [|split]; cbn; [| | reflexivity];
    intros k x; now rewrite lookup_empty.
Qed.

(** After the invitation and the approval of alice, the metrics count no
    pending registration. *)
Lemma no_request_left_pending_witness :
  settled invited_recruiter
  ∧ settled approved_recruiter
  ∧ metrics_pending_registrations
      (update_recruitment_metrics new_year_later approved_recruiter) = 0%Z.
Proof.
  assert (Hinvited : settled invited_recruiter).
  { unfold invited_recruiter.
    exact (proj1 (no_request_left_pending processing_time new_year new_year
                    first_token alice_challenge "alice" alice_registration
                    fresh_recruiter settled_fresh)). }
  split; [exact Hinvited |]. unfold approved_recruiter.
  exact (proj2 (no_request_left_pending processing_time new_year_later
                  new_year_later first_token alice_challenge "alice"
                  alice_registration invited_recruiter Hinvited)).
Defined.

(** The recruiter is consistent after the invitation and the approval of
    alice. *)
Lemma consistency_preserved_witness :
  consistent fresh_recruiter ∧ consistent invited_recruiter
  ∧ consistent approved_recruiter.
Proof.
  assert (Hinvited : consistent invited_recruiter).
  { unfold invited_recruiter.
    exact (proj1 (consistency_preserved processing_time new_year first_token
                    alice_challenge "alice" alice_registration fresh_recruiter
                    consistent_fresh)). }
  split; [exact consistent_fresh |]. split; [exact Hinvited |].
  unfold approved_recruiter.
  exact (proj1 (proj2 (consistency_preserved processing_time new_year_later
                         first_token alice_challenge "alice" alice_registration
                         invited_recruiter Hinvited))).
Defined.


(** The request created from the submission of alice is approved and
    alice is onboarded by the next run of the loop, with the karma 250 of
    her profile and the weight 5/2. *)
Lemma approval_then_onboarding_witness :
  ∃ agent,
    registered_agents
      (snd (onboard_verified_agents new_year_later
              (snd (approve_registration new_year_later first_token
                      (snd (create_registration_request new_year_later first_token
                              alice_registration invited_recruiter)))))) !! "alice"
    = Some agent
    ∧ AgentProfile.karma_score agent = 250%Z
    ∧ AgentProfile.governance_weight agent = Qmax 1 (250 / 100)
    ∧ AgentProfile.contribution_history agent = [onboarding_event new_year_later].
Proof.
  destruct (approval_then_onboarding new_year_later new_year_later first_token
              (submitted_request new_year_later first_token alice_registration)
              (snd (create_registration_request new_year_later first_token
                      alice_registration invited_recruiter)))
    as (_ & _ & agent & Hagent & Hkarma & Hweight & Hhistory & _).
  { vm_compute. reflexivity. }
  exists agent. split; [exact Hagent |]. split; [exact Hkarma |].
  split; [exact Hweight | exact Hhistory].
Defined.

(** Bob, loaded verified and without history, is onboarded with the
    weight 1 and counted in the breakdown, research twice. *)
Example loaded_agent_onboarded :
  (AgentProfile.governance_weight
     <$> registered_agents (snd (onboard_verified_agents new_year loaded_recruiter))
         !! "bob") = Some 1%Q
  ∧ map_to_list (get_specialization_breakdown loaded_recruiter)
    = [("research", 2%Z); ("trading", 1%Z)].
Proof. by_evaluation. Qed.

End FurtherExamples.
